(** * EcoAgent: a shallow embedding of the query-resolution core

    The development follows the Python sources of the repository:
    - [agente/rag_pipeline.py]: the lexical vector store, the canned
      language model and [EcoRAGPipeline.query];
    - [agente/tools.py]: the product table and the eligibility check;
    - [agente/eco_agent.py]: the interaction statistics, [process_query],
      [get_stats] and the JSON event logger;
    - [config.py]: the iteration bound.

    Conventions.  A Python [str] is a Rocq [string] holding its UTF-8
    encoding: concatenation, prefix tests, substring tests and
    non-overlapping counts agree on code points and on their encodings.
    A Python [int] is a [Z] (or a [nat] where the code only counts up from
    zero).  A raised exception is a value of [exn] carried by [result].
    Builtins whose behaviour depends on the Unicode tables ([str.lower],
    [str.split]) are an interface, [PyUnicode], with an instance for ASCII
    text.  What the surrounding libraries decide (the agent executor, the
    retrieval chain, the clock, the file system) enters as an argument. *)

From Stdlib Require Import String Ascii List ZArith Lia Bool Arith.
From Stdlib Require Import Permutation Sorted QArith DecimalString.
Import ListNotations.

Open Scope string_scope.
Open Scope list_scope.
Open Scope nat_scope.

(** ** Python builtins on [str] *)

Module PyStr.

(** [s.startswith(sub)]. *)
Fixpoint startswith (sub s : string) : bool :=
  match sub, s with
  | EmptyString, _ => true
  | String a sub', String b s' => Ascii.eqb a b && startswith sub' s'
  | String _ _, EmptyString => false
  end.

(** [sub in s]: [sub] starts at some position of [s]. *)
Fixpoint str_in (sub s : string) : bool :=
  startswith sub s ||
  match s with
  | EmptyString => false
  | String _ s' => str_in sub s'
  end.

(** The scan behind [s.count(sub)]: left to right, a match at the current
    position is counted and the next [length sub - 1] positions are skipped,
    so that occurrences do not overlap.  The empty [sub] matches at every
    position and once more at the end, as in Python. *)
Fixpoint count_from (sub s : string) (skip : nat) : nat :=
  match s with
  | EmptyString =>
      match sub with
      | EmptyString => 1
      | String _ _ => 0
      end
  | String _ s' =>
      match skip with
      | S n => count_from sub s' n
      | O =>
          if startswith sub s
          then S (count_from sub s' (String.length sub - 1))
          else count_from sub s' 0
      end
  end.

(** [s.count(sub)]. *)
Definition str_count (s sub : string) : nat := count_from sub s 0.

(** [l[:k]] for a Python integer [k]: a negative [k] counts from the end. *)
Definition slice_to {A : Type} (l : list A) (k : Z) : list A :=
  if (k <? 0)%Z
  then firstn (length l - Z.to_nat (- k)) l
  else firstn (Z.to_nat k) l.

(** [str(n)] for an [int]. *)
Definition str_of_int (n : Z) : string :=
  NilZero.string_of_int (Z.to_int n).

(** A line feed, and the joining of lines with it. *)
Definition nl : string := String (ascii_of_nat 10) EmptyString.

Fixpoint join (sep : string) (l : list string) : string :=
  match l with
  | [] => EmptyString
  | [x] => x
  | x :: rest => x ++ sep ++ join sep rest
  end.

(** The Unicode-dependent builtins the sources call. *)
Class PyUnicode : Type := {
  lower : string -> string;          (* [s.lower()] *)
  split : string -> list string      (* [s.split()], on runs of whitespace *)
}.

(** *** The ASCII instance *)

Definition ascii_lower_char (c : ascii) : ascii :=
  let n := nat_of_ascii c in
  if (65 <=? n) && (n <=? 90) then ascii_of_nat (n + 32) else c.

Fixpoint ascii_lower (s : string) : string :=
  match s with
  | EmptyString => EmptyString
  | String c s' => String (ascii_lower_char c) (ascii_lower s')
  end.

(** The ASCII characters for which [str.isspace] holds. *)
Definition ascii_isspace (c : ascii) : bool :=
  let n := nat_of_ascii c in
  ((9 <=? n) && (n <=? 13)) || ((28 <=? n) && (n <=? 32)).

(** [split_from s cur] cuts [s] at runs of whitespace; [cur] is the word
    being read. *)
Fixpoint split_from (s cur : string) : list string :=
  match s with
  | EmptyString =>
      match cur with
      | EmptyString => []
      | String _ _ => [cur]
      end
  | String c s' =>
      if ascii_isspace c
      then match cur with
           | EmptyString => split_from s' EmptyString
           | String _ _ => cur :: split_from s' EmptyString
           end
      else split_from s' (cur ++ String c EmptyString)
  end.

Definition ascii_split (s : string) : list string := split_from s EmptyString.

#[export] Instance AsciiText : PyUnicode :=
  {| lower := ascii_lower; split := ascii_split |}.

End PyStr.
Import PyStr.

(** ** [agente/rag_pipeline.py]: lexical retrieval *)

Module Retrieval.

(** [langchain.schema.Document]. *)
Record Document : Type := {
  page_content : string;
  metadata : list (string * string)
}.

(** [list.sort(key=lambda x: x[0], reverse=True)] is a stable sort: entries
    with equal keys keep their order, also under [reverse=True].  Insertion
    from the right gives that order: a new entry moves past the entries
    with a strictly larger score only. *)
Fixpoint insert_desc {A : Type} (x : nat * A) (l : list (nat * A))
  : list (nat * A) :=
  match l with
  | [] => [x]
  | y :: l' =>
      if fst x <? fst y then y :: insert_desc x l' else x :: y :: l'
  end.

Fixpoint sort_desc {A : Type} (l : list (nat * A)) : list (nat * A) :=
  match l with
  | [] => []
  | x :: l' => insert_desc x (sort_desc l')
  end.

Section SimulatedVectorStore.
Context `{PyUnicode}.

(** The inner loop, [for keyword in keywords], with its accumulator. *)
Fixpoint keyword_loop (keywords : list string) (content_lower : string)
  (score : nat) : nat :=
  match keywords with
  | [] => score
  | keyword :: rest =>
      keyword_loop rest content_lower
        (if str_in keyword content_lower
         then score + str_count content_lower keyword
         else score)
  end.

(** The outer loop, [for doc in self.documents], appending to
    [scored_docs]. *)
Fixpoint document_loop (documents : list Document) (query_lower : string)
  (scored_docs : list (nat * Document)) : list (nat * Document) :=
  match documents with
  | [] => scored_docs
  | doc :: rest =>
      let content_lower := lower (page_content doc) in
      let keywords := split query_lower in
      let score := keyword_loop keywords content_lower 0 in
      document_loop rest query_lower
        (if 0 <? score then scored_docs ++ [(score, doc)] else scored_docs)
  end.

(** [SimulatedVectorStore.similarity_search]. *)
Definition similarity_search (documents : list Document) (query : string)
  (k : Z) : list Document :=
  let query_lower := lower query in
  let scored_docs := document_loop documents query_lower [] in
  let scored_docs := sort_desc scored_docs in
  map snd (slice_to scored_docs k).

(** The description of the ranking, term by term: the score of a document
    is the sum, over the terms of the query, of the occurrences of the term
    in the lowercased content. *)
Definition term_score (terms : list string) (doc : Document) : nat :=
  list_sum (map (fun t => str_count (lower (page_content doc)) t) terms).

Definition scored_corpus (documents : list Document) (query : string)
  : list (nat * Document) :=
  let terms := split (lower query) in
  filter (fun p => 0 <? fst p)
         (map (fun d => (term_score terms d, d)) documents).

End SimulatedVectorStore.

(** A ranking of [scored]: the same entries, in descending score order,
    entries of one score in the order they have in [scored]. *)
Definition stable_ranking {A : Type} (scored ranked : list (nat * A)) : Prop :=
  Permutation ranked scored /\
  StronglySorted (fun a b => fst b <= fst a) ranked /\
  forall s, filter (fun p => fst p =? s) ranked
            = filter (fun p => fst p =? s) scored.

End Retrieval.

(** ** Exceptions *)

Module Exn.

(** The exception classes the sources raise or catch, with [str(e)]. *)
Inductive exn : Type :=
| ValueError (msg : string)
| KeyError (msg : string)
| ZeroDivisionError (msg : string)
| OSError (msg : string)
| AttributeError (msg : string)
| TypeError (msg : string)
| RuntimeError (msg : string).

Definition str_of_exn (e : exn) : string :=
  match e with
  | ValueError m | KeyError m | ZeroDivisionError m
  | OSError m | AttributeError m | TypeError m | RuntimeError m => m
  end.

(** A computation returns a value or raises. *)
Inductive result (A : Type) : Type :=
| Ok (a : A)
| Raise (e : exn).
Arguments Ok {A} a.
Arguments Raise {A} e.

Definition bind {A B : Type} (m : result A) (f : A -> result B) : result B :=
  match m with
  | Ok a => f a
  | Raise e => Raise e
  end.

End Exn.
Import Exn.

Notation "x <- m ;; f" := (bind m (fun x => f))
  (at level 61, m at next level, right associativity).

(** ** [datetime] *)

Module PyDatetime.

Local Open Scope Z_scope.

Record datetime : Type := {
  year : Z; month : Z; day : Z;
  hour : Z; minute : Z; second : Z; microsecond : Z
}.

Definition is_leap (y : Z) : bool :=
  (y mod 4 =? 0) && (negb (y mod 100 =? 0) || (y mod 400 =? 0)).

Definition days_in_month (y m : Z) : Z :=
  if (m =? 2) && is_leap y then 29
  else nth (Z.to_nat m) [0; 31; 28; 31; 30; 31; 30; 31; 31; 30; 31; 30; 31] 0.

Definition days_before_year (y : Z) : Z :=
  let y := y - 1 in y * 365 + y / 4 - y / 100 + y / 400.

Definition days_before_month (y m : Z) : Z :=
  nth (Z.to_nat m) [0; 0; 31; 59; 90; 120; 151; 181; 212; 243; 273; 304; 334] 0
  + (if (2 <? m) && is_leap y then 1 else 0).

(** [date.toordinal()]: day 1 is 0001-01-01. *)
Definition toordinal (d : datetime) : Z :=
  days_before_year (year d) + days_before_month (year d) (month d) + day d.

Definition valid_date (d : datetime) : bool :=
  (1 <=? year d) && (year d <=? 9999) &&
  (1 <=? month d) && (month d <=? 12) &&
  (1 <=? day d) && (day d <=? days_in_month (year d) (month d)).

Definition valid_time (d : datetime) : bool :=
  (0 <=? hour d) && (hour d <? 24) &&
  (0 <=? minute d) && (minute d <? 60) &&
  (0 <=? second d) && (second d <? 60) &&
  (0 <=? microsecond d) && (microsecond d <? 1000000).

(** Microseconds since the start of day 0. *)
Definition to_microseconds (d : datetime) : Z :=
  (((toordinal d * 24 + hour d) * 60 + minute d) * 60 + second d) * 1000000
  + microsecond d.

(** [(a - b).days]: a [timedelta] is normalised with a floor division. *)
Definition timedelta_days (a b : datetime) : Z :=
  (to_microseconds a - to_microseconds b) / 86400000000.

(** Decimal digits, zero-padded to a width. *)
Definition digit_char (n : Z) : ascii := ascii_of_nat (48 + Z.to_nat (n mod 10)).

Fixpoint zero_padded (width : nat) (n : Z) : string :=
  match width with
  | O => EmptyString
  | S w => (zero_padded w (n / 10) ++ String (digit_char n) EmptyString)%string
  end.

(** [datetime.isoformat()]: the fraction is printed when it is not zero. *)
Definition isoformat (d : datetime) : string :=
  (zero_padded 4 (year d) ++ "-" ++ zero_padded 2 (month d) ++ "-"
   ++ zero_padded 2 (day d) ++ "T" ++ zero_padded 2 (hour d) ++ ":"
   ++ zero_padded 2 (minute d) ++ ":" ++ zero_padded 2 (second d)
   ++ (if (microsecond d =? 0)%Z then EmptyString else "." ++ zero_padded 6 (microsecond d)))%string.

(** *** [datetime.strptime(s, "%Y-%m-%d")] on ASCII digits *)

Definition digit_value (c : ascii) : option Z :=
  let n := nat_of_ascii c in
  if ((48 <=? n) && (n <=? 57))%nat then Some (Z.of_nat (n - 48)) else None.

(** [%Y]: four digits. *)
Definition read_year (s : string) : option (Z * string) :=
  match s with
  | String a (String b (String c (String d rest))) =>
      match digit_value a, digit_value b, digit_value c, digit_value d with
      | Some a, Some b, Some c, Some d =>
          Some (a * 1000 + b * 100 + c * 10 + d, rest)
      | _, _, _, _ => None
      end
  | _ => None
  end.

(** [%m] is [1[0-2]|0[1-9]|[1-9]], the first alternative that matches. *)
Definition read_month (s : string) : option (Z * string) :=
  match s with
  | String a rest =>
      match digit_value a with
      | None => None
      | Some x =>
          match rest with
          | String b rest' =>
              match digit_value b with
              | Some y =>
                  if (x =? 1) && (y <=? 2) then Some (10 + y, rest')
                  else if (x =? 0) && (1 <=? y) then Some (y, rest')
                  else if 1 <=? x then Some (x, rest) else None
              | None => if 1 <=? x then Some (x, rest) else None
              end
          | EmptyString => if 1 <=? x then Some (x, rest) else None
          end
      end
  | EmptyString => None
  end.

(** [%d] is [3[01]|[12]\d|0[1-9]|[1-9]| [1-9]]. *)
Definition read_day (s : string) : option (Z * string) :=
  match s with
  | String a rest =>
      match digit_value a with
      | Some x =>
          match rest with
          | String b rest' =>
              match digit_value b with
              | Some y =>
                  if (x =? 3) && (y <=? 1) then Some (30 + y, rest')
                  else if (1 <=? x) && (x <=? 2) then Some (x * 10 + y, rest')
                  else if (x =? 0) && (1 <=? y) then Some (y, rest')
                  else if 1 <=? x then Some (x, rest) else None
              | None => if 1 <=? x then Some (x, rest) else None
              end
          | EmptyString => if 1 <=? x then Some (x, rest) else None
          end
      | None =>
          if Ascii.eqb a " " then
            match rest with
            | String b rest' =>
                match digit_value b with
                | Some y => if 1 <=? y then Some (y, rest') else None
                | None => None
                end
            | EmptyString => None
            end
          else None
      end
  | EmptyString => None
  end.

Definition expect_dash (s : string) : option string :=
  match s with
  | String c rest => if Ascii.eqb c "-" then Some rest else None
  | EmptyString => None
  end.

Definition format_error (s : string) : exn :=
  ValueError ("time data '" ++ s ++ "' does not match format '%Y-%m-%d'")%string.

(** The whole string must be consumed and the date must exist. *)
Definition ascii_strptime_ymd (s : string) : result datetime :=
  match read_year s with
  | None => Raise (format_error s)
  | Some (y, s1) =>
      match expect_dash s1 with
      | None => Raise (format_error s)
      | Some s2 =>
          match read_month s2 with
          | None => Raise (format_error s)
          | Some (m, s3) =>
              match expect_dash s3 with
              | None => Raise (format_error s)
              | Some s4 =>
                  match read_day s4 with
                  | None => Raise (format_error s)
                  | Some (d, EmptyString) =>
                      let date := {| year := y; month := m; day := d;
                                     hour := 0; minute := 0; second := 0;
                                     microsecond := 0 |} in
                      if y =? 0 then Raise (ValueError "year 0 is out of range")
                      else if valid_date date then Ok date
                      else Raise (ValueError "day is out of range for month")
                  | Some (_, String _ _ as rest) =>
                      Raise (ValueError ("unconverted data remains: " ++ rest)%string)
                  end
              end
          end
      end
  end.

(** The parser as the sources see it. *)
Class PyStrptime : Type := {
  strptime_ymd : string -> result datetime
}.

#[export] Instance AsciiStrptime : PyStrptime :=
  {| strptime_ymd := ascii_strptime_ymd |}.

End PyDatetime.
Import PyDatetime.

(** ** [agente/tools.py]: the eligibility check *)

Module Tools.

Local Open Scope Z_scope.

(** A row of [productos_db].  [precio] is a two-decimal literal in the
    source and is kept in cents. *)
Record Producto : Type := {
  nombre : string;
  categoria : string;
  precio : Z;
  garantia_dias : Z;
  elegible_devolucion : bool
}.

(** [ProductoTools.productos_db], in the order of the source. *)
Definition productos_db : list (string * Producto) :=
  [ ("PROD001", {| nombre := "Smartphone EcoTech Pro"; categoria := "Electrónicos";
                   precio := 29999; garantia_dias := 30;
                   elegible_devolucion := true |});
    ("PROD002", {| nombre := "Laptop EcoFriendly"; categoria := "Computadoras";
                   precio := 89999; garantia_dias := 15;
                   elegible_devolucion := true |});
    ("PROD003", {| nombre := "Auriculares Wireless"; categoria := "Audio";
                   precio := 7999; garantia_dias := 14;
                   elegible_devolucion := true |});
    ("PROD004", {| nombre := "Tablet EcoPad"; categoria := "Tablets";
                   precio := 19999; garantia_dias := 7;
                   elegible_devolucion := false |}) ].

(** [d.get(key)] on a dict kept as an association list. *)
Fixpoint dict_get {V : Type} (d : list (string * V)) (key : string) : option V :=
  match d with
  | [] => None
  | (k, v) :: rest => if String.eqb k key then Some v else dict_get rest key
  end.

(** [key in d]. *)
Definition dict_contains {V : Type} (d : list (string * V)) (key : string) : bool :=
  match dict_get d key with
  | Some _ => true
  | None => false
  end.

(** [d[key]], which raises [KeyError] on a missing key. *)
Definition dict_getitem {V : Type} (d : list (string * V)) (key : string)
  : result V :=
  match dict_get d key with
  | Some v => Ok v
  | None => Raise (KeyError ("'" ++ key ++ "'")%string)
  end.

(** [str(x)] for a price with two decimals: a trailing zero is dropped. *)
Definition str_of_price (cents : Z) : string :=
  let r := cents mod 100 in
  (str_of_int (cents / 100) ++ "."
   ++ (if (r mod 10 =? 0)%Z then str_of_int (r / 10) else zero_padded 2 r))%string.

(** [ProductoTools._verificar_condiciones_adicionales].  The source compares
    [dias_transcurridos > garantia_dias * 0.8]; both sides are scaled by
    five here, which agrees with the floating-point comparison for the
    periods of the table. *)
Definition _verificar_condiciones_adicionales (producto_id : string)
  (dias_transcurridos : Z) : result string :=
  producto <- dict_getitem productos_db producto_id ;;
  let condiciones := [] in
  let condiciones :=
    if 4 * garantia_dias producto <? 5 * dias_transcurridos
    then (condiciones ++ ["⚠️ Nota: Está cerca del límite del período de devolución."])%list
    else condiciones in
  let condiciones :=
    if 50000 <? precio producto
    then (condiciones ++ ["💎 Producto de alto valor: Se requiere inspección adicional."])%list
    else condiciones in
  Ok (match condiciones with
      | [] => "✅ Todas las condiciones cumplidas."
      | _ :: _ => join nl condiciones
      end).

Section Verificar.
Context `{PyStrptime}.

(** The three rejections and the acceptance, as the source formats them. *)
Definition msg_no_existe (producto_id : string) : string :=
  ("❌ Error: El producto " ++ producto_id ++ " no existe en nuestro sistema.")%string.

Definition msg_no_elegible (producto : Producto) (producto_id : string) : string :=
  ("❌ El producto " ++ nombre producto ++ " (" ++ producto_id
   ++ ") no es elegible para devolución según nuestras políticas.")%string.

Definition msg_fecha_invalida : string :=
  "❌ Error: Formato de fecha inválido. Use YYYY-MM-DD".

Definition msg_fuera_de_plazo (producto : Producto) (producto_id : string)
  (dias_transcurridos : Z) : string :=
  ("❌ El producto " ++ nombre producto ++ " (" ++ producto_id
   ++ ") ya no es elegible para devolución. "
   ++ "Han transcurrido " ++ str_of_int dias_transcurridos
   ++ " días desde la compra, "
   ++ "pero el período de devolución es de "
   ++ str_of_int (garantia_dias producto) ++ " días.")%string.

Definition msg_elegible (producto : Producto) (producto_id : string)
  (dias_transcurridos : Z) (condiciones_adicionales : string) : string :=
  ("✅ El producto " ++ nombre producto ++ " (" ++ producto_id
   ++ ") ES ELEGIBLE para devolución." ++ nl
   ++ "📅 Días transcurridos: " ++ str_of_int dias_transcurridos ++ "/"
   ++ str_of_int (garantia_dias producto) ++ nl
   ++ "💰 Precio: $" ++ str_of_price (precio producto) ++ nl
   ++ "📦 Categoría: " ++ categoria producto ++ nl
   ++ condiciones_adicionales)%string.

(** The body of the outer [try].  [now] is the value of [datetime.now()]. *)
Definition verificar_elegibilidad_body (now : datetime)
  (producto_id fecha_compra : string) : result string :=
  if negb (dict_contains productos_db producto_id)
  then Ok (msg_no_existe producto_id)
  else
    producto <- dict_getitem productos_db producto_id ;;
    if negb (elegible_devolucion producto)
    then Ok (msg_no_elegible producto producto_id)
    else
      match strptime_ymd fecha_compra with
      | Raise (ValueError _) => Ok msg_fecha_invalida
      | Raise e => Raise e
      | Ok fecha_compra_obj =>
          let dias_transcurridos := timedelta_days now fecha_compra_obj in
          if garantia_dias producto <? dias_transcurridos
          then Ok (msg_fuera_de_plazo producto producto_id dias_transcurridos)
          else
            condiciones_adicionales <-
              _verificar_condiciones_adicionales producto_id dias_transcurridos ;;
            Ok (msg_elegible producto producto_id dias_transcurridos
                  condiciones_adicionales)
      end.

(** [ProductoTools.verificar_elegibilidad_producto]: whatever the body
    raises is turned into a text by the outer [except Exception]. *)
Definition verificar_elegibilidad_producto (now : datetime)
  (producto_id fecha_compra : string) : string :=
  match verificar_elegibilidad_body now producto_id fecha_compra with
  | Ok resultado => resultado
  | Raise e =>
      ("❌ Error interno al verificar elegibilidad: " ++ str_of_exn e)%string
  end.

End Verificar.

(** A text of acceptance opens with the check mark, a rejection with the
    cross. *)
Definition is_success_message (s : string) : bool := startswith "✅" s.

End Tools.

(** ** [agente/rag_pipeline.py]: the pipeline *)

Module Rag.
Import Retrieval.

(** The dictionary [query] returns. *)
Record QAResult : Type := {
  result_text : string;                 (* key ["result"] *)
  source_documents : list Document      (* key ["source_documents"] *)
}.

(** A chain is used through its [run] method only; a library chain may
    raise, for one when its embedding or model backend fails. *)
Definition QAChain : Type := string -> result QAResult.

(** The index of the pipeline: the library's FAISS index over the
    documents, or the lexical store of [_create_simulated_vectorstore]. *)
Inductive VectorStore : Type :=
| FAISS (documents : list Document)
| SimulatedVectorStore (documents : list Document).

Record EcoRAGPipeline : Type := {
  use_simulated_model : bool;
  embeddings : option string;           (* the embeddings client, by its key *)
  vectorstore : option VectorStore;
  qa_chain : option QAChain
}.

Definition set_vectorstore (self : EcoRAGPipeline) (v : VectorStore)
  : EcoRAGPipeline :=
  {| use_simulated_model := use_simulated_model self;
     embeddings := embeddings self;
     vectorstore := Some v;
     qa_chain := qa_chain self |}.

(** [EcoRAGPipeline.create_vectorstore].  [load_default] is the outcome of
    [_load_default_documents], [from_documents] the outcome of building the
    FAISS index.  In the handler [documents] is still [None] when the
    loading raised. *)
Definition create_vectorstore (self : EcoRAGPipeline)
  (documents : option (list Document))
  (load_default : result (list Document))
  (from_documents : list Document -> result unit) : EcoRAGPipeline :=
  let loaded :=
    match documents with
    | None => load_default
    | Some docs => Ok docs
    end in
  match loaded with
  | Raise _ => set_vectorstore self (SimulatedVectorStore [])
  | Ok docs =>
      if negb (use_simulated_model self) &&
         match embeddings self with Some _ => true | None => false end
      then match from_documents docs with
           | Ok _ => set_vectorstore self (FAISS docs)
           | Raise _ => set_vectorstore self (SimulatedVectorStore docs)
           end
      else set_vectorstore self (SimulatedVectorStore docs)
  end.

Section Synthesis.
Context `{PyUnicode}.

(** [SimulatedLLM.__call__] of [_create_simulated_llm]. *)
Definition SimulatedLLM (prompt : string) : string :=
  let prompt_lower := lower prompt in
  if str_in "devolución" prompt_lower || str_in "devolver" prompt_lower
  then "Para procesar una devolución, necesito verificar la elegibilidad del producto y generar una etiqueta de devolución."
  else if str_in "política" prompt_lower
  then "Las políticas de devolución varían según la categoría del producto. Los electrónicos tienen 30 días, computadoras 15 días, audio 14 días y tablets 7 días."
  else if str_in "soporte" prompt_lower || str_in "ayuda" prompt_lower
  then "Puedo ayudarte con consultas sobre devoluciones, información de productos y políticas de la empresa."
  else "Soy EcoAgent, tu asistente para devoluciones. ¿En qué puedo ayudarte?".

(** [SimulatedQAChain.run]: the chain object carries no [retriever]
    attribute, so no document is looked up.  The method is given for
    reference: see [_create_simulated_qa_chain]. *)
Definition SimulatedQAChain_run : QAChain :=
  fun query =>
    let docs := [] in
    let response := SimulatedLLM query in
    Ok {| result_text := response; source_documents := docs |}.

(** [EcoRAGPipeline._create_simulated_qa_chain].  The constructor of
    [SimulatedQAChain] calls [self._create_simulated_llm()] on the chain,
    which has no such method: the call raises and no chain is built. *)
Definition _create_simulated_qa_chain : result QAChain :=
  Raise (AttributeError
           "'SimulatedQAChain' object has no attribute '_create_simulated_llm'").

(** A chain that stuffs the retrieved documents and the question into a
    prompt and asks the simulated model. *)
Definition stuff_chain (retrieve : string -> list Document)
  (prompt_of : list Document -> string -> string) : QAChain :=
  fun question =>
    let docs := retrieve question in
    Ok {| result_text := SimulatedLLM (prompt_of docs question);
          source_documents := docs |}.

(** The chain of the pipeline answers [question] with the simulated model:
    it raises, or its text is what the model says on some prompt. *)
Definition answers_with_simulated_llm (chain : QAChain) (question : string) : Prop :=
  match chain question with
  | Raise _ => True
  | Ok r => exists prompt, result_text r = SimulatedLLM prompt
  end.

End Synthesis.

(** [EcoRAGPipeline.query]. *)
Definition query (self : EcoRAGPipeline) (question : string) : QAResult :=
  match qa_chain self with
  | Some chain =>
      match chain question with
      | Ok result => result
      | Raise e =>
          {| result_text := "Error al procesar la consulta: " ++ str_of_exn e;
             source_documents := [] |}
      end
  | None =>
      {| result_text := "Lo siento, el sistema RAG no está disponible en este momento.";
         source_documents := [] |}
  end.

End Rag.

(** ** [config.py] *)

Module Config.

Definition AGENT_MAX_ITERATIONS : nat := 5.
Definition AGENT_EARLY_STOPPING : string := "generate".
Definition RAG_K_DOCUMENTS : Z := 4.
Definition LOG_FILE : string := "logs/interacciones.log".

End Config.

(** ** [agente/eco_agent.py]: statistics and [process_query] *)

Module Agent.

Local Open Scope Z_scope.

(** [EcoAgent.stats]. *)
Record Stats : Type := {
  total_interactions : Z;
  tools_used : list (string * Z);
  successful_interactions : Z;
  errors : Z
}.

(** The statistics of [__init__], which [reset_stats] restores. *)
Definition initial_stats : Stats :=
  {| total_interactions := 0; tools_used := [];
     successful_interactions := 0; errors := 0 |}.

(** The counters add up. *)
Definition balanced (st : Stats) : Prop :=
  total_interactions st = successful_interactions st + errors st.

(** The keyword arguments [create_agent] passes to the library's
    [initialize_agent]. *)
Record AgentExecutor : Type := {
  agent_type : string;
  verbose : bool;
  handle_parsing_errors : bool;
  max_iterations : nat;
  early_stopping_method : string
}.

Record EcoAgent : Type := {
  use_simulated_model : bool;
  rag_available : bool;                 (* [rag_pipeline is not None] *)
  tools : list string;                  (* the tools, by name *)
  agent : option AgentExecutor;
  stats : Stats
}.

Definition set_stats (self : EcoAgent) (st : Stats) : EcoAgent :=
  {| use_simulated_model := use_simulated_model self;
     rag_available := rag_available self;
     tools := tools self;
     agent := agent self;
     stats := st |}.

Definition set_agent (self : EcoAgent) (a : AgentExecutor) : EcoAgent :=
  {| use_simulated_model := use_simulated_model self;
     rag_available := rag_available self;
     tools := tools self;
     agent := Some a;
     stats := stats self |}.

(** The names [create_tools] registers. *)
Definition tool_names : list string :=
  [ "Verificar Elegibilidad de Producto";
    "Generar Etiqueta de Devolución";
    "Consultar Políticas de Devolución";
    "Consulta RAG" ].

(** [EcoAgent.create_agent], when the library builds the executor. *)
Definition create_agent (self : EcoAgent) : EcoAgent :=
  set_agent self
    {| agent_type := "zero-shot-react-description";
       verbose := true;
       handle_parsing_errors := true;
       max_iterations := 5;
       early_stopping_method := "generate" |}.

(** [EcoAgent.reset_stats]. *)
Definition reset_stats (self : EcoAgent) : EcoAgent :=
  set_stats self initial_stats.

(** [EcoAgent._create_contextual_prompt]. *)
Definition _create_contextual_prompt (user_input : string) : string :=
  ("
Eres EcoAgent, un asistente inteligente especializado en devoluciones de productos.

CONTEXTO:
- Trabajas para EcoTech, una empresa eco-friendly
- Tienes acceso a herramientas para verificar elegibilidad y generar etiquetas
- Puedes consultar políticas y procedimientos usando RAG
- Siempre eres amable, profesional y útil

HERRAMIENTAS DISPONIBLES:
1. Verificar Elegibilidad de Producto: Para verificar si un producto puede devolverse
2. Generar Etiqueta de Devolución: Para crear etiquetas de devolución
3. Consultar Políticas de Devolución: Para obtener información sobre políticas
4. Consulta RAG: Para consultas generales sobre la empresa

INSTRUCCIONES:
- Responde de manera clara y profesional
- Usa las herramientas cuando sea apropiado
- Si el usuario pregunta sobre devoluciones, verifica elegibilidad primero
- Si necesita una etiqueta, genera una después de verificar elegibilidad
- Siempre explica el proceso paso a paso

CONSULTA DEL USUARIO: " ++ user_input ++ "

Responde de manera útil y profesional:
")%string.

(** The dictionary [process_query] returns; [tools_available] is present
    on success only and [error] on failure only. *)
Record QueryResult : Type := {
  response : string;
  timestamp : string;
  user_input_echo : string;             (* key ["user_input"] *)
  agent_status : string;
  tools_available : option Z;
  error : option string;
  stats_snapshot : Stats                (* key ["stats"] *)
}.

Definition incr_total (st : Stats) : Stats :=
  {| total_interactions := total_interactions st + 1;
     tools_used := tools_used st;
     successful_interactions := successful_interactions st;
     errors := errors st |}.

Definition incr_successful (st : Stats) : Stats :=
  {| total_interactions := total_interactions st;
     tools_used := tools_used st;
     successful_interactions := successful_interactions st + 1;
     errors := errors st |}.

Definition incr_errors (st : Stats) : Stats :=
  {| total_interactions := total_interactions st;
     tools_used := tools_used st;
     successful_interactions := successful_interactions st;
     errors := errors st + 1 |}.

(** [EcoAgent.process_query].  [run] is [self.agent.run] at this call, the
    library's executor, which returns the final answer or raises; [now] is
    the clock when the result is built. *)
Definition process_query (self : EcoAgent) (run : string -> result string)
  (now : datetime) (user_input : string) : QueryResult * EcoAgent :=
  let self := set_stats self (incr_total (stats self)) in
  let contextual_prompt := _create_contextual_prompt user_input in
  let outcome :=
    match agent self with
    | Some _ => run contextual_prompt
    | None => Ok "Lo siento, el agente no está disponible en este momento."
    end in
  match outcome with
  | Ok response =>
      let self := set_stats self (incr_successful (stats self)) in
      ({| response := response;
          timestamp := isoformat now;
          user_input_echo := user_input;
          agent_status := "success";
          tools_available := Some (Z.of_nat (length (tools self)));
          error := None;
          stats_snapshot := stats self |}, self)
  | Raise e =>
      let self := set_stats self (incr_errors (stats self)) in
      ({| response := ("Lo siento, ocurrió un error al procesar tu consulta: "
                       ++ str_of_exn e)%string;
          timestamp := isoformat now;
          user_input_echo := user_input;
          agent_status := "error";
          tools_available := None;
          error := Some (str_of_exn e);
          stats_snapshot := stats self |}, self)
  end.

(** A session: the calls to [process_query] one after the other, each with
    the behaviour of the executor at that call. *)
Fixpoint process_queries (self : EcoAgent)
  (calls : list ((string -> result string) * datetime * string)) : EcoAgent :=
  match calls with
  | [] => self
  | (run, now, user_input) :: rest =>
      process_queries (snd (process_query self run now user_input)) rest
  end.

(** Python's [a / b] on integers. *)
Definition truediv (a b : Z) : result Q :=
  if b =? 0 then Raise (ZeroDivisionError "division by zero")
  else Ok (inject_Z a / inject_Z b)%Q.

(** The dictionary [get_stats] returns. *)
Record StatsView : Type := {
  view_total_interactions : Z;
  view_successful_interactions : Z;
  error_rate : Q;
  view_tools_available : Z;
  view_rag_available : bool;
  model_type : string
}.

(** [EcoAgent.get_stats]. *)
Definition get_stats (self : EcoAgent) : result StatsView :=
  rate <- truediv (errors (stats self))
                  (Z.max (total_interactions (stats self)) 1) ;;
  Ok {| view_total_interactions := total_interactions (stats self);
        view_successful_interactions := successful_interactions (stats self);
        error_rate := rate;
        view_tools_available := Z.of_nat (length (tools self));
        view_rag_available := rag_available self;
        model_type := if use_simulated_model self then "simulated" else "openai" |}.

End Agent.

(** ** [json.dumps] and [json.loads] on flat objects of strings *)

Module Json.

Definition dquote : ascii := ascii_of_nat 34.
Definition backslash : ascii := ascii_of_nat 92.

(** A lowercase hexadecimal digit, as [format(n, 'x')] prints it. *)
Definition hex_char (n : nat) : ascii :=
  if n <? 10 then ascii_of_nat (48 + n) else ascii_of_nat (87 + n).

(** The replacement of one character by [py_encode_basestring], the
    encoder under [ensure_ascii=False]: the quote, the backslash and the
    control characters are escaped, everything else is copied. *)
Definition escape_char (c : ascii) : string :=
  let n := nat_of_ascii c in
  if n =? 34 then String backslash (String dquote EmptyString)
  else if n =? 92 then String backslash (String backslash EmptyString)
  else if n =? 10 then String backslash "n"
  else if n =? 13 then String backslash "r"
  else if n =? 9 then String backslash "t"
  else if n =? 8 then String backslash "b"
  else if n =? 12 then String backslash "f"
  else if n <? 32
  then String backslash
         (String "u" (String "0" (String "0"
           (String (hex_char (n / 16)) (String (hex_char (n mod 16)) EmptyString)))))
  else String c EmptyString.

Fixpoint escape (s : string) : string :=
  match s with
  | EmptyString => EmptyString
  | String c s' => escape_char c ++ escape s'
  end.

Definition encode_basestring (s : string) : string :=
  String dquote (escape s ++ String dquote EmptyString).

(** The members of an object, joined by the default separators. *)
Fixpoint dumps_items (items : list (string * string)) : string :=
  match items with
  | [] => EmptyString
  | (k, v) :: rest =>
      encode_basestring k ++ ": " ++ encode_basestring v
      ++ match rest with
         | [] => EmptyString
         | _ :: _ => ", " ++ dumps_items rest
         end
  end.

(** [json.dumps(d, ensure_ascii=False)] for a dict of strings. *)
Definition dumps (items : list (string * string)) : string :=
  "{" ++ dumps_items items ++ "}".

(** *** Decoding *)

(** [d[key] = value]: a key that is present keeps its place. *)
Fixpoint dict_set (d : list (string * string)) (key value : string)
  : list (string * string) :=
  match d with
  | [] => [(key, value)]
  | (k, v) :: rest =>
      if String.eqb k key then (k, value) :: rest
      else (k, v) :: dict_set rest key value
  end.

Definition hex_value (c : ascii) : option N :=
  let n := nat_of_ascii c in
  if (48 <=? n) && (n <=? 57) then Some (N.of_nat (n - 48))
  else if (97 <=? n) && (n <=? 102) then Some (N.of_nat (n - 87))
  else if (65 <=? n) && (n <=? 70) then Some (N.of_nat (n - 55))
  else None.

(** The UTF-8 encoding of a code point of the basic plane; a surrogate has
    none. *)
Definition utf8_of_code_point (cp : N) : option string :=
  (if cp <? 128 then Some (String (ascii_of_N cp) EmptyString)
   else if cp <? 2048
   then Some (String (ascii_of_N (192 + cp / 64))
                (String (ascii_of_N (128 + cp mod 64)) EmptyString))
   else if (55296 <=? cp) && (cp <=? 57343) then None
   else Some (String (ascii_of_N (224 + cp / 4096))
                (String (ascii_of_N (128 + (cp / 64) mod 64))
                   (String (ascii_of_N (128 + cp mod 64)) EmptyString))))%N.

(** Where the scanner is inside a string literal. *)
Inductive str_state : Type :=
| SNormal
| SEscape                                  (* after a backslash *)
| SHex (remaining : nat) (acc : N).        (* inside [\uXXXX] *)

(** Where the scanner is inside the object. *)
Inductive obj_state : Type :=
| PStart                                   (* before the opening brace *)
| PKeyOrEnd                                (* after the opening brace *)
| PKey                                     (* after a comma *)
| PColon (key : string)
| PValue (key : string)
| PCommaOrEnd
| PInString (key : option string) (cur : string) (st : str_state)
| PDone.

Definition is_json_space (c : ascii) : bool :=
  let n := nat_of_ascii c in
  (n =? 32) || (n =? 9) || (n =? 10) || (n =? 13).

(** The end of a string literal: a key waits for its colon, a value is
    stored. *)
Definition close_string (key : option string) (cur : string)
  (items : list (string * string)) : obj_state * list (string * string) :=
  match key with
  | None => (PColon cur, items)
  | Some k => (PCommaOrEnd, dict_set items k cur)
  end.

(** One character of a string literal. *)
Definition string_step (key : option string) (cur : string) (st : str_state)
  (items : list (string * string)) (c : ascii)
  : option (obj_state * list (string * string)) :=
  let n := nat_of_ascii c in
  let put (s : string) := Some (PInString key (cur ++ s) SNormal, items) in
  match st with
  | SNormal =>
      if n =? 34 then Some (close_string key cur items)
      else if n =? 92 then Some (PInString key cur SEscape, items)
      else if n <? 32 then None
      else put (String c EmptyString)
  | SEscape =>
      if (n =? 34) || (n =? 92) || (n =? 47) then put (String c EmptyString)
      else if n =? 98 then put (String (ascii_of_nat 8) EmptyString)
      else if n =? 102 then put (String (ascii_of_nat 12) EmptyString)
      else if n =? 110 then put (String (ascii_of_nat 10) EmptyString)
      else if n =? 114 then put (String (ascii_of_nat 13) EmptyString)
      else if n =? 116 then put (String (ascii_of_nat 9) EmptyString)
      else if n =? 117 then Some (PInString key cur (SHex 4 0%N), items)
      else None
  | SHex remaining acc =>
      match hex_value c with
      | None => None
      | Some h =>
          match remaining with
          | S O =>
              match utf8_of_code_point (acc * 16 + h)%N with
              | Some s => put s
              | None => None
              end
          | S r => Some (PInString key cur (SHex r (acc * 16 + h)%N), items)
          | O => None
          end
      end
  end.

(** One character of the object. *)
Definition object_step (st : obj_state) (items : list (string * string))
  (c : ascii) : option (obj_state * list (string * string)) :=
  let n := nat_of_ascii c in
  match st with
  | PInString key cur sst => string_step key cur sst items c
  | _ =>
      if is_json_space c then Some (st, items)
      else
        match st with
        | PStart => if n =? 123 then Some (PKeyOrEnd, items) else None
        | PKeyOrEnd =>
            if n =? 34 then Some (PInString None EmptyString SNormal, items)
            else if n =? 125 then Some (PDone, items)
            else None
        | PKey =>
            if n =? 34 then Some (PInString None EmptyString SNormal, items)
            else None
        | PColon key => if n =? 58 then Some (PValue key, items) else None
        | PValue key =>
            if n =? 34 then Some (PInString (Some key) EmptyString SNormal, items)
            else None
        | PCommaOrEnd =>
            if n =? 44 then Some (PKey, items)
            else if n =? 125 then Some (PDone, items)
            else None
        | PInString _ _ _ => None
        | PDone => None
        end
  end.

Fixpoint loads_from (st : obj_state) (items : list (string * string))
  (s : string) : option (list (string * string)) :=
  match s with
  | EmptyString =>
      match st with
      | PDone => Some items
      | _ => None
      end
  | String c s' =>
      match object_step st items c with
      | Some (st', items') => loads_from st' items' s'
      | None => None
      end
  end.

(** [json.loads] on an object whose values are strings. *)
Definition loads (s : string) : option (list (string * string)) :=
  loads_from PStart [] s.

(** The dict that a sequence of pairs builds on top of [d], pair after
    pair. *)
Definition dict_of (items : list (string * string)) (d : list (string * string))
  : list (string * string) :=
  fold_left (fun d kv => dict_set d (fst kv) (snd kv)) items d.

End Json.

(** ** [agente/eco_agent.py]: [EcoAgentLogger] *)

Module Logger.
Import Tools.

(** [langchain.schema.AgentAction] and [AgentFinish]. *)
Record AgentAction : Type := {
  tool : string;
  tool_input : string;
  log : string
}.

Record AgentFinish : Type := {
  return_values : list (string * string);
  finish_log : string
}.

(** [d.get(key, default)]. *)
Definition dict_get_default (d : list (string * string)) (key default : string)
  : string :=
  match dict_get d key with
  | Some v => v
  | None => default
  end.

(** The entry [on_agent_action] builds. *)
Definition action_entry (now : datetime) (action : AgentAction)
  : list (string * string) :=
  [ ("timestamp", isoformat now);
    ("type", "agent_action");
    ("tool", tool action);
    ("tool_input", tool_input action);
    ("log", log action) ].

(** The entry [on_agent_finish] builds. *)
Definition finish_entry (now : datetime) (finish : AgentFinish)
  : list (string * string) :=
  [ ("timestamp", isoformat now);
    ("type", "agent_finish");
    ("output", dict_get_default (return_values finish) "output" EmptyString);
    ("log", finish_log finish) ].

(** [EcoAgentLogger._write_log].  [file] is the content of the log file
    and [io] says whether opening and appending succeed; a failure is
    logged and swallowed. *)
Definition _write_log (file : string) (log_entry : list (string * string))
  (io : result unit) : string :=
  match io with
  | Ok _ => file ++ Json.dumps log_entry ++ nl
  | Raise _ => file
  end.

(** [EcoAgentLogger.on_agent_action]. *)
Definition on_agent_action (file : string) (now : datetime)
  (action : AgentAction) (io : result unit) : string :=
  _write_log file (action_entry now action) io.

(** [EcoAgentLogger.on_agent_finish]. *)
Definition on_agent_finish (file : string) (now : datetime)
  (finish : AgentFinish) (io : result unit) : string :=
  _write_log file (finish_entry now finish) io.

(** No line feed occurs in [s]. *)
Fixpoint no_linefeed (s : string) : bool :=
  match s with
  | EmptyString => true
  | String c s' => negb (nat_of_ascii c =? 10) && no_linefeed s'
  end.

Definition is_digit (c : ascii) : bool :=
  let n := nat_of_ascii c in (48 <=? n) && (n <=? 57).

Fixpoint all_digits (s : string) : bool :=
  match s with
  | EmptyString => true
  | String c s' => is_digit c && all_digits s'
  end.

(** The ISO-8601 shape [YYYY-MM-DDTHH:MM:SS], with an optional fraction of
    six digits. *)
Definition is_iso8601 (s : string) : bool :=
  let digits a n := all_digits (substring a n s) && (String.length (substring a n s) =? n) in
  let sep a c := String.eqb (substring a 1 s) c in
  digits 0 4 && sep 4 "-" && digits 5 2 && sep 7 "-" && digits 8 2
  && sep 10 "T" && digits 11 2 && sep 13 ":" && digits 14 2 && sep 16 ":"
  && digits 17 2
  && ((String.length s =? 19)
      || ((String.length s =? 26) && sep 19 "." && digits 20 6)).

End Logger.

(** ** The reasoning loop *)

Module Orchestrator.

(** Modelled from the spec: the decision of a reasoning step, the structured
    type that section 9 of the specification puts at the boundary of the
    reasoning step of the library's executor. *)
Inductive Decision : Type :=
| Invoke (capability_name args : string)
| Final (answer : string)
| ParseError.

(** Modelled from the spec: the events and the context of a query, section 3
    of the specification. *)
Inductive Event : Type :=
| Action (capability_name args rationale : string)
| Finish (output rationale : string).

Record QueryContext : Type := {
  raw_query : string;
  iteration_count : nat;
  trace : list Event;
  last_result : option string
}.

(** Modelled from the spec: the states of the loop, section 4.4. *)
Inductive Phase : Type :=
| Reasoning
| ActionDispatch (capability_name args : string)
| Finished (answer : string)
| MaxIterationsReached (answer : string).

Definition is_terminal (p : Phase) : bool :=
  match p with
  | Finished _ | MaxIterationsReached _ => true
  | Reasoning | ActionDispatch _ _ => false
  end.

Section Loop.

(** The iteration bound, the reasoning strategy, the registry of
    capabilities and the answer given when nothing was computed. *)
Variable N : nat.
Variable strategy : QueryContext -> Decision.
Variable invoke : string -> string -> string.
Variable generic_message : string.

Definition initial_context (query : string) : QueryContext :=
  {| raw_query := query; iteration_count := 0; trace := []; last_result := None |}.

Definition best_effort (ctx : QueryContext) : string :=
  match last_result ctx with
  | Some text => text
  | None => generic_message
  end.

Definition count_iteration (ctx : QueryContext) : QueryContext :=
  {| raw_query := raw_query ctx;
     iteration_count := S (iteration_count ctx);
     trace := trace ctx;
     last_result := last_result ctx |}.

Definition record_event (ctx : QueryContext) (e : Event)
  (res : option string) : QueryContext :=
  {| raw_query := raw_query ctx;
     iteration_count := iteration_count ctx;
     trace := trace ctx ++ [e];
     last_result := res |}.

(** Modelled from the spec: the loop of the agent executor, which
    [create_agent] obtains from the library call [initialize_agent] and
    which is not among the sources.  Section 4.4 of the specification: from
    [Reasoning], a step selects a capability, gives the final answer, or
    fails to parse and is retried within the same budget; a dispatch
    invokes the capability, appends an [Action] event and folds the text
    back; once [N] reasoning steps have occurred without a final answer
    the loop stops with the best available answer. *)
Definition step (st : Phase * QueryContext) : Phase * QueryContext :=
  let (phase, ctx) := st in
  match phase with
  | Reasoning =>
      if N <=? iteration_count ctx
      then (MaxIterationsReached (best_effort ctx), ctx)
      else
        let ctx' := count_iteration ctx in
        match strategy ctx with
        | Invoke name args => (ActionDispatch name args, ctx')
        | Final answer =>
            (Finished answer,
             record_event ctx' (Finish answer EmptyString) (last_result ctx'))
        | ParseError => (Reasoning, ctx')
        end
  | ActionDispatch name args =>
      let text := invoke name args in
      (Reasoning, record_event ctx (Action name args EmptyString) (Some text))
  | Finished _ | MaxIterationsReached _ => st
  end.

(** Modelled from the spec: the loop, [step] after [step] until a state is
    terminal. *)
Fixpoint run (fuel : nat) (st : Phase * QueryContext) : Phase * QueryContext :=
  match fuel with
  | O => st
  | S fuel' => if is_terminal (fst st) then st else run fuel' (step st)
  end.

(** Modelled from the spec: a query is processed from [Reasoning] on the
    raw query, with fuel for [N] reasoning steps, [N] dispatches and the
    closing step. *)
Definition process (query : string) : Phase * QueryContext :=
  run (2 * N + 1) (Reasoning, initial_context query).

(** A strategy that never gives a final answer. *)
Definition never_finishes : Prop :=
  forall ctx answer, strategy ctx <> Final answer.

(** What holds of the state a query ends in. *)
Definition ends_within_budget (st : Phase * QueryContext) : Prop :=
  is_terminal (fst st) = true /\
  iteration_count (snd st) <= N /\
  length (trace (snd st)) <= iteration_count (snd st) /\
  (never_finishes ->
   fst st = MaxIterationsReached (best_effort (snd st)) /\
   iteration_count (snd st) = N).

End Loop.

End Orchestrator.

(** ** [agente/eco_agent.py]: how the tools and the logger are wired *)

Module Wiring.
Import Tools.

(** A Python function, by the positional parameters it requires: one, or
    two, in which case the name of the function and of its second
    parameter are kept for the message of the interpreter. *)
Inductive Callable : Type :=
| Unary (f : string -> string)
| Binary (name second_parameter : string) (f : string -> string -> string).

(** [f(arg)], a call with one positional argument: a function that
    requires two raises [TypeError]. *)
Definition call_one (c : Callable) (arg : string) : result string :=
  match c with
  | Unary f => Ok (f arg)
  | Binary name second_parameter _ =>
      Raise (TypeError (name ++ "() missing 1 required positional argument: '"
                        ++ second_parameter ++ "'"))
  end.

(** [langchain.agents.Tool]: a tool of one text input. *)
Record Tool : Type := {
  name : string;
  func : Callable
}.

(** [Tool.run] on a text: the library calls [func] with the text as its
    only argument. *)
Definition tool_run (t : Tool) (tool_input : string) : result string :=
  call_one (func t) tool_input.

(** The first tool of [create_tools]: its [func] is the function
    [verificar_elegibilidad_producto(producto_id, fecha_compra)] of
    [tools.py], of two required parameters.  [now] is the clock of the
    function. *)
Definition verificar_tool `{PyStrptime} (now : datetime) : Tool :=
  {| name := "Verificar Elegibilidad de Producto";
     func := Binary "verificar_elegibilidad_producto" "fecha_compra"
               (verificar_elegibilidad_producto now) |}.

(** A run of the executor that invokes a tool: what the tool raises
    escapes the run; what it returns is handed to the rest of the run. *)
Definition run_invoking (t : Tool) (tool_input : string)
  (continue : string -> result string) : string -> result string :=
  fun _ => observation <- tool_run t tool_input ;; continue observation.

End Wiring.

Module Callbacks.
Import Logger.

(** What the executor reports to its callback handlers. *)
Inductive AgentEvent : Type :=
| ActionEvent (action : AgentAction)
| FinishEvent (finish : AgentFinish).

(** [EcoAgentLogger], the only handler of the sources. *)
Record EcoAgentLogger : Type := {
  log_file : string
}.

(** [self.logger = EcoAgentLogger()] of [EcoAgent.__init__]. *)
Definition logger : EcoAgentLogger :=
  {| log_file := "logs/interacciones.log" |}.

(** The handlers given to the executor: [create_agent] passes no
    [callbacks] to [initialize_agent], and [process_query] passes none to
    [self.agent.run]. *)
Definition create_agent_callbacks : list EcoAgentLogger := [].
Definition process_query_callbacks : list EcoAgentLogger := [].

(** One handler is told of one event; [file] is the content of its log
    file and [io] says whether the append succeeds. *)
Definition handle (now : datetime) (event : AgentEvent) (io : result unit)
  (file : string) (handler : EcoAgentLogger) : string :=
  match event with
  | ActionEvent action => on_agent_action file now action io
  | FinishEvent finish => on_agent_finish file now finish io
  end.

(** The library tells every registered handler of every event of a run,
    in order. *)
Fixpoint log_after (handlers : list EcoAgentLogger)
  (events : list (datetime * AgentEvent * result unit)) (file : string) : string :=
  match events with
  | [] => file
  | (now, event, io) :: rest =>
      log_after handlers rest (fold_left (handle now event io) handlers file)
  end.

End Callbacks.

(** ** Sample data for the examples *)

Module Samples.

(** A corpus of three documents for the examples. *)
Definition doc_once : Retrieval.Document :=
  {| Retrieval.page_content := "Audio returns within 14 days";
     Retrieval.metadata := [("source", "kb/audio")] |}.
Definition doc_thrice : Retrieval.Document :=
  {| Retrieval.page_content := "Returns: returns desk handles RETURNS";
     Retrieval.metadata := [("source", "kb/returns")] |}.
Definition doc_other : Retrieval.Document :=
  {| Retrieval.page_content := "Support is available by email";
     Retrieval.metadata := [("source", "kb/support")] |}.
Definition doc_once' : Retrieval.Document :=
  {| Retrieval.page_content := "Tablet returns";
     Retrieval.metadata := [("source", "kb/tablet")] |}.

(** An agent as [create_eco_agent] leaves it. *)
Definition ready_agent : Agent.EcoAgent :=
  Agent.create_agent
    {| Agent.use_simulated_model := true;
       Agent.rag_available := true;
       Agent.tools := Agent.tool_names;
       Agent.agent := None;
       Agent.stats := Agent.initial_stats |}.

Definition noon : datetime :=
  {| year := 2024; month := 12; day := 1;
     hour := 12; minute := 0; second := 0; microsecond := 0 |}.

(** A query about a product that is not in the table. *)
Definition ask_prod999 : string :=
  "¿Puedo devolver el producto PROD999 comprado el 2024-10-01?".

(** A pipeline whose chain cannot reach its backend. *)
Definition failing_chain : Rag.QAChain :=
  fun _ => Raise (OSError "Connection error.").

Definition offline_pipeline : Rag.EcoRAGPipeline :=
  {| Rag.use_simulated_model := false;
     Rag.embeddings := Some "sk-test";
     Rag.vectorstore := Some (Rag.FAISS [doc_once; doc_other; doc_thrice]);
     Rag.qa_chain := Some failing_chain |}.

(** The pipeline of the examples with the lexical store and the simulated
    model behind a stuffing chain. *)
Definition join_contents (docs : list Retrieval.Document) (question : string)
  : string :=
  (join nl (map Retrieval.page_content docs) ++ nl ++ question)%string.

Definition simulated_pipeline : Rag.EcoRAGPipeline :=
  {| Rag.use_simulated_model := true;
     Rag.embeddings := None;
     Rag.vectorstore :=
       Some (Rag.SimulatedVectorStore [doc_once; doc_other; doc_thrice]);
     Rag.qa_chain :=
       Some (Rag.stuff_chain
               (fun q => Retrieval.similarity_search
                           [doc_once; doc_other; doc_thrice] q 4)
               join_contents) |}.

(** A strategy that asks for the same capability again and again. *)
Definition stubborn_strategy : Orchestrator.QueryContext -> Orchestrator.Decision :=
  fun _ => Orchestrator.Invoke "Consulta RAG" "devoluciones".

Definition echo_capability : string -> string -> string :=
  fun name args => (name ++ ": " ++ args)%string.

(** A strategy that looks the policies up once and then answers with what
    it found. *)
Definition lookup_then_answer : Orchestrator.QueryContext -> Orchestrator.Decision :=
  fun ctx =>
    match Orchestrator.last_result ctx with
    | None => Orchestrator.Invoke "Consultar Políticas de Devolución" "Audio"
    | Some text => Orchestrator.Final text
    end.

(** An action and a final answer for the examples. *)
Definition sample_action : Logger.AgentAction :=
  {| Logger.tool := "Verificar Elegibilidad de Producto";
     Logger.tool_input := "PROD001 2024-10-01";
     Logger.log := ("Thought: verifico primero" ++ nl
                    ++ "Action: Verificar Elegibilidad de Producto")%string |}.

Definition sample_finish : Logger.AgentFinish :=
  {| Logger.return_values := [("output", "El producto ya no es elegible.")];
     Logger.finish_log := "Final Answer: El producto ya no es elegible." |}.

(** The events of a run that invokes one tool and answers. *)
Definition sample_events
  : list (datetime * Callbacks.AgentEvent * result unit) :=
  [ (noon, Callbacks.ActionEvent sample_action, Ok tt);
    (noon, Callbacks.FinishEvent sample_finish, Ok tt) ].

End Samples.
Import Samples.

(** * Properties *)

(** ** Lexical retrieval *)

Section RetrievalFacts.
Import Retrieval.
Context `{PyUnicode}.

Lemma count_from_absent (sub s : string) :
  str_in sub s = false -> forall skip, count_from sub s skip = 0.
Proof.
  induction s as [| c s IH]; simpl; intros Hin skip.
  - destruct sub; [discriminate | reflexivity].
  - apply orb_false_iff in Hin as [Hhere Hlater].
    destruct skip as [| n]; [rewrite Hhere |]; now apply IH.
Qed.

Lemma keyword_loop_sum (keywords : list string) (content : string) (acc : nat) :
  keyword_loop keywords content acc
  = acc + list_sum (map (fun t => str_count content t) keywords).
Proof.
  revert acc.
  induction keywords as [| kw rest IH]; intros acc; simpl.
  - lia.
  - rewrite IH.
    destruct (str_in kw content) eqn:Hin.
    + lia.
    + unfold str_count. rewrite (count_from_absent _ _ Hin). lia.
Qed.

Lemma document_loop_filter (documents : list Document) (query_lower : string)
  (acc : list (nat * Document)) :
  document_loop documents query_lower acc
  = acc ++ filter (fun p => 0 <? fst p)
             (map (fun d => (term_score (split query_lower) d, d)) documents).
Proof.
  revert acc.
  induction documents as [| doc rest IH]; intros acc; simpl.
  - now rewrite app_nil_r.
  - rewrite IH, keyword_loop_sum. simpl. fold (term_score (split query_lower) doc).
    destruct (0 <? term_score (split query_lower) doc).
    + now rewrite <- app_assoc.
    + reflexivity.
Qed.

End RetrievalFacts.

Section SortFacts.
Import Retrieval.
Variable A : Type.
Implicit Types (x : nat * A) (l : list (nat * A)).

Lemma insert_desc_perm x l : Permutation (insert_desc x l) (x :: l).
Proof.
  induction l as [| y l IH]; simpl.
  - reflexivity.
  - destruct (fst x <? fst y).
    + rewrite IH. apply perm_swap.
    + reflexivity.
Qed.

Lemma sort_desc_perm l : Permutation (sort_desc l) l.
Proof.
  induction l as [| x l IH]; simpl.
  - reflexivity.
  - rewrite insert_desc_perm. now constructor.
Qed.

Lemma insert_desc_sorted x l :
  StronglySorted (fun a b => fst b <= fst a) l ->
  StronglySorted (fun a b => fst b <= fst a) (insert_desc x l).
Proof.
  induction 1 as [| y l Hsorted IH Hall]; simpl.
  - repeat constructor.
  - destruct (fst x <? fst y) eqn:Hlt.
    + apply Nat.ltb_lt in Hlt.
      constructor; [assumption |].
      apply (Permutation_Forall (Permutation_sym (insert_desc_perm x l))).
      constructor; [lia | assumption].
    + apply Nat.ltb_ge in Hlt.
      constructor.
      * now constructor.
      * constructor; [assumption |].
        eapply Forall_impl; [| exact Hall]. simpl. intros z Hz. lia.
Qed.

Lemma sort_desc_sorted l :
  StronglySorted (fun a b => fst b <= fst a) (sort_desc l).
Proof.
  induction l as [| x l IH]; simpl.
  - constructor.
  - now apply insert_desc_sorted.
Qed.

Lemma insert_desc_stable (s : nat) x l :
  filter (fun p => fst p =? s) (insert_desc x l)
  = filter (fun p => fst p =? s) (x :: l).
Proof.
  induction l as [| y l IH]; [reflexivity |].
  simpl insert_desc.
  destruct (fst x <? fst y) eqn:Hlt; [| reflexivity].
  apply Nat.ltb_lt in Hlt.
  change (filter (fun p => fst p =? s) (y :: insert_desc x l))
    with (if fst y =? s then y :: filter (fun p => fst p =? s) (insert_desc x l)
          else filter (fun p => fst p =? s) (insert_desc x l)).
  rewrite IH. simpl.
  destruct (fst y =? s) eqn:Hy, (fst x =? s) eqn:Hx; try reflexivity.
  apply Nat.eqb_eq in Hy, Hx. lia.
Qed.

Lemma sort_desc_stable (s : nat) l :
  filter (fun p => fst p =? s) (sort_desc l) = filter (fun p => fst p =? s) l.
Proof.
  induction l as [| x l IH]; [reflexivity |].
  simpl sort_desc. rewrite insert_desc_stable. simpl. now rewrite IH.
Qed.

Lemma sort_desc_ranking l : stable_ranking l (sort_desc l).
Proof.
  split; [apply sort_desc_perm |].
  split; [apply sort_desc_sorted |].
  intros s. apply sort_desc_stable.
Qed.

End SortFacts.

Section SimilaritySearch.
Import Retrieval.
Context `{PyUnicode}.

Lemma similarity_search_unfold (documents : list Document) (query : string) (k : Z) :
  similarity_search documents query k
  = map snd (slice_to (sort_desc (scored_corpus documents query)) k).
Proof.
  unfold similarity_search, scored_corpus.
  now rewrite document_loop_filter.
Qed.

Lemma term_score_absent (terms : list string) (doc : Document) :
  (forall t, In t terms -> str_in t (lower (page_content doc)) = false) ->
  term_score terms doc = 0.
Proof.
  unfold term_score.
  induction terms as [| t ts IH]; intros Habsent; [reflexivity |].
  simpl. unfold str_count at 1.
  rewrite (count_from_absent _ _ (Habsent t (or_introl eq_refl))).
  apply IH. intros t' Ht'. apply Habsent. now right.
Qed.

Lemma scored_corpus_empty (documents : list Document) (query : string) :
  (forall d t, In d documents -> In t (split (lower query)) ->
               str_in t (lower (page_content d)) = false) ->
  scored_corpus documents query = [].
Proof.
  unfold scored_corpus.
  induction documents as [| doc rest IH]; intros Habsent; [reflexivity |].
  simpl.
  rewrite term_score_absent
    by (intros t Ht; apply Habsent; [now left | exact Ht]).
  simpl.
  apply IH. intros d t Hd Ht. apply Habsent; [now right | exact Ht].
Qed.

(** C1.  For every corpus, query and [k >= 0], [similarity_search] returns
    the documents of the first [k] entries of a ranking of the corpus in
    which every document carries the sum, over the whitespace-separated
    terms of the lowercased query, of the occurrences of the term in its
    lowercased content, documents of score zero are left out, scores
    descend and documents of equal score keep the order of the corpus.  The
    result has at most [k] documents and is empty when no document contains
    a term of the query. *)
Theorem similarity_search_ranking (documents : list Document) (query : string)
  (k : Z) :
  (0 <= k)%Z ->
  exists ranked : list (nat * Document),
    stable_ranking (scored_corpus documents query) ranked /\
    similarity_search documents query k = map snd (firstn (Z.to_nat k) ranked) /\
    (Z.of_nat (length (similarity_search documents query k)) <= k)%Z /\
    ((forall d t, In d documents -> In t (split (lower query)) ->
                  str_in t (lower (page_content d)) = false) ->
     similarity_search documents query k = []).
Proof.
  intros Hk.
  exists (sort_desc (scored_corpus documents query)).
  assert (Hslice : similarity_search documents query k
                   = map snd (firstn (Z.to_nat k)
                                (sort_desc (scored_corpus documents query)))).
  { rewrite similarity_search_unfold. unfold slice_to.
    destruct (k <? 0)%Z eqn:Hneg; [apply Z.ltb_lt in Hneg; lia | reflexivity]. }
  split; [apply sort_desc_ranking |].
  split; [exact Hslice |].
  split.
  - rewrite Hslice, length_map.
    pose proof (firstn_le_length (Z.to_nat k)
                  (sort_desc (scored_corpus documents query))).
    lia.
  - intros Habsent.
    rewrite Hslice, (scored_corpus_empty _ _ Habsent). simpl.
    now rewrite firstn_nil.
Qed.

End SimilaritySearch.

Example similarity_search_ranks_by_count :
  Retrieval.similarity_search [doc_once; doc_other; doc_thrice] "  Returns " 4
  = [doc_thrice; doc_once].
Proof. reflexivity. Qed.

Example similarity_search_ties_keep_order :
  Retrieval.similarity_search [doc_once'; doc_thrice; doc_once] "returns" 4
  = [doc_thrice; doc_once'; doc_once].
Proof. reflexivity. Qed.

Example similarity_search_truncates :
  Retrieval.similarity_search [doc_once; doc_other; doc_thrice] "returns email" 2
  = [doc_thrice; doc_once].
Proof. reflexivity. Qed.

Example similarity_search_no_match :
  Retrieval.similarity_search [doc_once; doc_other; doc_thrice] "refund" 4 = [].
Proof. reflexivity. Qed.

Example str_count_does_not_overlap : str_count "aaaa" "aa" = 2.
Proof. reflexivity. Qed.

Lemma similarity_search_ranking_witness :
  (0 <= 2)%Z /\
  exists ranked : list (nat * Retrieval.Document),
    Retrieval.stable_ranking
      (Retrieval.scored_corpus [doc_once; doc_other; doc_thrice] "returns email")
      ranked /\
    Retrieval.similarity_search [doc_once; doc_other; doc_thrice] "returns email" 2
    = map snd (firstn (Z.to_nat 2) ranked) /\
    (Z.of_nat (length (Retrieval.similarity_search
                         [doc_once; doc_other; doc_thrice] "returns email" 2)) <= 2)%Z /\
    ((forall d t, In d [doc_once; doc_other; doc_thrice] ->
                  In t (split (lower "returns email")) ->
                  str_in t (lower (Retrieval.page_content d)) = false) ->
     Retrieval.similarity_search [doc_once; doc_other; doc_thrice] "returns email" 2 = []).
Proof.
  split; [lia |].
  apply (similarity_search_ranking [doc_once; doc_other; doc_thrice] "returns email" 2).
  lia.
Defined.

(** ** Interaction statistics *)

Section StatsFacts.
Import Agent.
Local Open Scope Z_scope.

Lemma process_query_step (self : EcoAgent) (run : string -> result string)
  (now : datetime) (user_input : string) :
  let st := stats self in
  let st' := stats (snd (process_query self run now user_input)) in
  total_interactions st' = total_interactions st + 1 /\
  successful_interactions st' + errors st'
  = successful_interactions st + errors st + 1.
Proof.
  unfold process_query. simpl.
  destruct (agent self); [destruct (run _) |]; simpl; lia.
Qed.

Lemma process_query_balanced (self : EcoAgent) (run : string -> result string)
  (now : datetime) (user_input : string) :
  balanced (stats self) ->
  balanced (stats (snd (process_query self run now user_input))).
Proof.
  unfold balanced. intros Hbal.
  pose proof (process_query_step self run now user_input) as [Htotal Hsum].
  simpl in Htotal, Hsum. lia.
Qed.

Lemma process_queries_balanced
  (calls : list ((string -> result string) * datetime * string)) :
  forall self, balanced (stats self) ->
               balanced (stats (process_queries self calls)).
Proof.
  induction calls as [| [[run now] user_input] rest IH]; intros self Hbal.
  - exact Hbal.
  - simpl. apply IH. now apply process_query_balanced.
Qed.

(** C2.  From fresh statistics (those of [__init__], which [reset_stats]
    restores), after any sequence of calls to [process_query] the total
    equals the successes plus the errors, and one more call, whether the
    executor returns or raises, adds exactly one to the total and exactly
    one to the sum of successes and errors, which keeps them equal. *)
Theorem process_query_accounting (self : EcoAgent)
  (calls : list ((string -> result string) * datetime * string)) :
  stats self = initial_stats ->
  let after := process_queries self calls in
  balanced (stats after) /\
  forall run now user_input,
    let st := stats after in
    let st' := stats (snd (process_query after run now user_input)) in
    total_interactions st' = total_interactions st + 1 /\
    successful_interactions st' + errors st'
    = successful_interactions st + errors st + 1 /\
    balanced st'.
Proof.
  intros Hfresh after.
  assert (Hbal : balanced (stats after)).
  { apply process_queries_balanced. rewrite Hfresh. reflexivity. }
  split; [exact Hbal |].
  intros run now user_input.
  pose proof (process_query_step after run now user_input) as [Htotal Hsum].
  repeat split; try assumption.
  now apply process_query_balanced.
Qed.

(** What one call does to each counter. *)
Lemma process_query_outcome (self : EcoAgent) (executor : AgentExecutor)
  (run : string -> result string) (now : datetime) (user_input : string) :
  agent self = Some executor ->
  let r := fst (process_query self run now user_input) in
  let st' := stats (snd (process_query self run now user_input)) in
  match run (_create_contextual_prompt user_input) with
  | Ok text =>
      response r = text /\ agent_status r = "success" /\
      successful_interactions st' = successful_interactions (stats self) + 1 /\
      errors st' = errors (stats self)
  | Raise e =>
      response r = ("Lo siento, ocurrió un error al procesar tu consulta: "
                    ++ str_of_exn e)%string /\
      agent_status r = "error" /\
      successful_interactions st' = successful_interactions (stats self) /\
      errors st' = errors (stats self) + 1
  end.
Proof.
  intros Hagent. unfold process_query. simpl. rewrite Hagent.
  destruct (run _); simpl; repeat split; reflexivity.
Qed.

(** C10.  [get_stats] never divides by zero: it returns, with [error_rate]
    the quotient of the errors by the larger of the total and one, a
    denominator that is at least one; on fresh statistics the rate is
    zero. *)
Theorem get_stats_error_rate (self : EcoAgent) :
  (exists view,
      get_stats self = Ok view /\
      1 <= Z.max (total_interactions (stats self)) 1 /\
      error_rate view
      = (inject_Z (errors (stats self))
         / inject_Z (Z.max (total_interactions (stats self)) 1))%Q) /\
  (exists view,
      get_stats (reset_stats self) = Ok view /\ (error_rate view == 0)%Q).
Proof.
  split.
  - unfold get_stats, truediv.
    destruct (Z.max (total_interactions (stats self)) 1 =? 0) eqn:Hzero.
    + apply Z.eqb_eq in Hzero. lia.
    + simpl. eexists. split; [reflexivity |]. split; [lia | reflexivity].
  - eexists. split; [reflexivity |]. reflexivity.
Qed.

End StatsFacts.

Example two_calls_one_failure :
  let calls := [ (fun _ => Ok "listo", noon, "hola");
                 (fun _ => Raise (RuntimeError "timeout"), noon, "adios") ] in
  Agent.stats (Agent.process_queries ready_agent calls)
  = {| Agent.total_interactions := 2; Agent.tools_used := [];
       Agent.successful_interactions := 1; Agent.errors := 1 |}.
Proof. reflexivity. Qed.

Example error_rate_after_two_calls :
  let calls := [ (fun _ => Ok "listo", noon, "hola");
                 (fun _ => Raise (RuntimeError "timeout"), noon, "adios") ] in
  match Agent.get_stats (Agent.process_queries ready_agent calls) with
  | Ok view => (Agent.error_rate view == 1 # 2)%Q
  | Raise _ => False
  end.
Proof. reflexivity. Qed.

Lemma process_query_accounting_witness :
  Agent.stats (Agent.reset_stats ready_agent) = Agent.initial_stats /\
  let after := Agent.process_queries (Agent.reset_stats ready_agent)
                 [(fun _ => Raise (RuntimeError "timeout"), noon, "hola")] in
  Agent.balanced (Agent.stats after) /\
  forall run now user_input,
    let st := Agent.stats after in
    let st' := Agent.stats (snd (Agent.process_query after run now user_input)) in
    (Agent.total_interactions st' = Agent.total_interactions st + 1 /\
     Agent.successful_interactions st' + Agent.errors st'
     = Agent.successful_interactions st + Agent.errors st + 1 /\
     Agent.balanced st')%Z.
Proof.
  split; [reflexivity |].
  apply (process_query_accounting (Agent.reset_stats ready_agent)
           [(fun _ => Raise (RuntimeError "timeout"), noon, "hola")]).
  reflexivity.
Defined.

(** ** Builtins *)

Section BuiltinFacts.
Local Open Scope Z_scope.

(** Between a time of day and a midnight, the days of the difference are
    the difference of the calendar days. *)
Lemma timedelta_days_calendar (a b : datetime) :
  valid_time a = true ->
  hour b = 0 -> minute b = 0 -> second b = 0 -> microsecond b = 0 ->
  timedelta_days a b = toordinal a - toordinal b.
Proof.
  unfold valid_time, timedelta_days, to_microseconds.
  intros Hvalid -> -> -> ->.
  repeat (apply andb_true_iff in Hvalid as [Hvalid ?]).
  repeat match goal with
         | Hle : (_ <=? _) = true |- _ => apply Z.leb_le in Hle
         | Hlt : (_ <? _) = true |- _ => apply Z.ltb_lt in Hlt
         end.
  symmetry.
  apply (Z.div_unique _ _ _
           (((hour a * 60 + minute a) * 60 + second a) * 1000000 + microsecond a));
    lia.
Qed.

(** A date that the ASCII parser accepts is a valid date at midnight. *)
Lemma ascii_strptime_midnight (s : string) (d : datetime) :
  ascii_strptime_ymd s = Ok d ->
  valid_date d = true /\
  hour d = 0 /\ minute d = 0 /\ second d = 0 /\ microsecond d = 0.
Proof.
  unfold ascii_strptime_ymd.
  destruct (read_year s) as [[y s1] |]; [| discriminate].
  destruct (expect_dash s1) as [s2 |]; [| discriminate].
  destruct (read_month s2) as [[m s3] |]; [| discriminate].
  destruct (expect_dash s3) as [s4 |]; [| discriminate].
  destruct (read_day s4) as [[dd [| c rest]] |]; try discriminate.
  destruct (y =? 0); [discriminate |].
  destruct (valid_date _) eqn:Hvalid; [| discriminate].
  intros Heq. injection Heq as <-. now rewrite Hvalid.
Qed.

(** The ASCII [split] gives no empty term. *)
Lemma split_from_nonempty (s cur : string) :
  Forall (fun t => t <> EmptyString) (split_from s cur).
Proof.
  revert cur. induction s as [| c s IH]; intros cur; simpl.
  - destruct cur; repeat constructor. discriminate.
  - destruct (ascii_isspace c).
    + destruct cur; [apply IH |]. constructor; [discriminate | apply IH].
    + apply IH.
Qed.

End BuiltinFacts.

(** ** Substrings *)

Section StringFacts.

Lemma startswith_app (sub rest : string) : startswith sub (sub ++ rest) = true.
Proof.
  induction sub as [| c sub IH]; simpl.
  - reflexivity.
  - now rewrite Ascii.eqb_refl, IH.
Qed.

Lemma startswith_in (sub s : string) : startswith sub s = true -> str_in sub s = true.
Proof.
  intros Hstart. destruct s; simpl in *; now rewrite Hstart.
Qed.

Lemma str_in_app_right (sub before s : string) :
  str_in sub s = true -> str_in sub (before ++ s) = true.
Proof.
  intros Hin. induction before as [| c before IH]; simpl.
  - exact Hin.
  - rewrite IH. apply orb_true_r.
Qed.

(** A text occurs in whatever is built around it. *)
Lemma str_in_middle (sub before after : string) :
  str_in sub (before ++ sub ++ after) = true.
Proof.
  apply str_in_app_right, startswith_in, startswith_app.
Qed.

Lemma startswith_app_left (sub s rest : string) :
  startswith sub s = true -> startswith sub (s ++ rest) = true.
Proof.
  revert s. induction sub as [| c sub IH]; intros s Hstart; [reflexivity |].
  destruct s as [| d s]; [discriminate |]. simpl in *.
  apply andb_true_iff in Hstart as [Hc Hrest].
  now rewrite Hc, IH.
Qed.

Lemma str_in_app_left (sub s rest : string) :
  str_in sub s = true -> str_in sub (s ++ rest) = true.
Proof.
  induction s as [| c s IH]; simpl; intros Hin.
  - rewrite orb_false_r in Hin. destruct sub; [| discriminate].
    destruct rest; reflexivity.
  - apply orb_true_iff in Hin as [Hhere | Hlater].
    + change (String c (s ++ rest)) with (String c s ++ rest)%string.
      now rewrite (startswith_app_left _ _ rest Hhere).
    + rewrite (IH Hlater). apply orb_true_r.
Qed.

Lemma append_assoc (a b c : string) : ((a ++ b) ++ c = a ++ (b ++ c))%string.
Proof.
  induction a as [| x a IH]; simpl; [reflexivity | now rewrite IH].
Qed.

End StringFacts.

(** ** The eligibility check *)

Section ToolsFacts.
Import Tools.
Context `{PyStrptime}.
Local Open Scope Z_scope.

Lemma msg_elegible_is_success (producto : Producto) (producto_id : string)
  (dias : Z) (condiciones : string) :
  is_success_message (msg_elegible producto producto_id dias condiciones) = true.
Proof. reflexivity. Qed.

(** C7.  For a product id that is not in the table and any purchase date,
    the check raises nothing, in its body or outside: it returns the text
    ["❌ Error: El producto <id> no existe en nuestro sistema."], which
    contains the id, opens with the cross and not with the check mark, and
    so differs from every text of acceptance. *)
Theorem verificar_producto_desconocido (now : datetime)
  (producto_id fecha_compra : string) :
  dict_contains productos_db producto_id = false ->
  let texto := verificar_elegibilidad_producto now producto_id fecha_compra in
  verificar_elegibilidad_body now producto_id fecha_compra
  = Ok (msg_no_existe producto_id) /\
  texto = ("❌ Error: El producto " ++ producto_id
           ++ " no existe en nuestro sistema.")%string /\
  str_in producto_id texto = true /\
  startswith "❌ Error" texto = true /\
  is_success_message texto = false /\
  forall producto producto_id' dias condiciones,
    texto <> msg_elegible producto producto_id' dias condiciones.
Proof.
  intros Habsent texto.
  assert (Hbody : verificar_elegibilidad_body now producto_id fecha_compra
                  = Ok (msg_no_existe producto_id)).
  { unfold verificar_elegibilidad_body. now rewrite Habsent. }
  assert (Htexto : texto = msg_no_existe producto_id).
  { unfold texto, verificar_elegibilidad_producto. now rewrite Hbody. }
  split; [exact Hbody |].
  split; [exact Htexto |].
  split; [rewrite Htexto; apply str_in_middle |].
  split; [now rewrite Htexto |].
  split; [now rewrite Htexto |].
  intros producto producto_id' dias condiciones Heq.
  rewrite Htexto in Heq. discriminate Heq.
Qed.

(** C8.  For PROD001 and a purchase date that parses, when more than 30
    days have elapsed at the time of the call the check returns the
    rejection that names the product, the elapsed days and the period of
    30 days. *)
Theorem verificar_fuera_de_plazo (now : datetime) (fecha_compra : string)
  (fecha_compra_obj : datetime) :
  strptime_ymd fecha_compra = Ok fecha_compra_obj ->
  30 < timedelta_days now fecha_compra_obj ->
  let dias := timedelta_days now fecha_compra_obj in
  let texto := verificar_elegibilidad_producto now "PROD001" fecha_compra in
  texto = ("❌ El producto Smartphone EcoTech Pro (PROD001) ya no es elegible para devolución. "
           ++ "Han transcurrido " ++ str_of_int dias
           ++ " días desde la compra, pero el período de devolución es de 30 días.")%string /\
  str_in ("Han transcurrido " ++ str_of_int dias ++ " días") texto = true /\
  str_in "el período de devolución es de 30 días" texto = true /\
  str_in "ya no es elegible" texto = true /\
  is_success_message texto = false.
Proof.
  intros Hparse Hlate dias texto.
  assert (Htexto : texto
    = ("❌ El producto Smartphone EcoTech Pro (PROD001) ya no es elegible para devolución. "
       ++ "Han transcurrido " ++ str_of_int dias
       ++ " días desde la compra, pero el período de devolución es de 30 días.")%string).
  { unfold texto, verificar_elegibilidad_producto, verificar_elegibilidad_body.
    simpl. rewrite Hparse.
    change (garantia_dias _) with 30.
    fold dias. apply Z.ltb_lt in Hlate. fold dias in Hlate. rewrite Hlate.
    reflexivity. }
  split; [exact Htexto |].
  rewrite Htexto.
  split.
  - apply str_in_app_right, startswith_in.
    change " días desde la compra, pero el período de devolución es de 30 días."
      with (" días" ++ " desde la compra, pero el período de devolución es de 30 días.")%string.
    rewrite <- !append_assoc. apply startswith_app.
  - split; [| split].
    + now do 3 apply str_in_app_right.
    + now apply str_in_app_left.
    + reflexivity.
Qed.

End ToolsFacts.

Example strptime_plain :
  strptime_ymd "2024-10-01"
  = Ok {| year := 2024; month := 10; day := 1;
          hour := 0; minute := 0; second := 0; microsecond := 0 |}.
Proof. reflexivity. Qed.

Example strptime_short_fields :
  strptime_ymd "2024-1-5"
  = Ok {| year := 2024; month := 1; day := 5;
          hour := 0; minute := 0; second := 0; microsecond := 0 |}.
Proof. reflexivity. Qed.

Example strptime_rejects :
  map strptime_ymd ["2024-10-32"; "2024-13-01"; "2024-02-30"; "01/10/2024"]
  = [ Raise (ValueError "unconverted data remains: 2");
      Raise (ValueError "time data '2024-13-01' does not match format '%Y-%m-%d'");
      Raise (ValueError "day is out of range for month");
      Raise (ValueError "time data '01/10/2024' does not match format '%Y-%m-%d'") ].
Proof. reflexivity. Qed.

Example toordinal_2024_12_01 : toordinal noon = 739221%Z.
Proof. reflexivity. Qed.

Example verificar_prod001_late :
  Tools.verificar_elegibilidad_producto noon "PROD001" "2024-10-01"
  = "❌ El producto Smartphone EcoTech Pro (PROD001) ya no es elegible para devolución. Han transcurrido 61 días desde la compra, pero el período de devolución es de 30 días.".
Proof. reflexivity. Qed.

Example verificar_prod001_in_time :
  Tools.verificar_elegibilidad_producto noon "PROD001" "2024-11-20"
  = ("✅ El producto Smartphone EcoTech Pro (PROD001) ES ELEGIBLE para devolución." ++ nl
     ++ "📅 Días transcurridos: 11/30" ++ nl
     ++ "💰 Precio: $299.99" ++ nl
     ++ "📦 Categoría: Electrónicos" ++ nl
     ++ "✅ Todas las condiciones cumplidas.")%string.
Proof. reflexivity. Qed.

Example verificar_prod004_excluded :
  Tools.verificar_elegibilidad_producto noon "PROD004" "2024-11-30"
  = "❌ El producto Tablet EcoPad (PROD004) no es elegible para devolución según nuestras políticas.".
Proof. reflexivity. Qed.

Example verificar_bad_date :
  Tools.verificar_elegibilidad_producto noon "PROD002" "ayer"
  = "❌ Error: Formato de fecha inválido. Use YYYY-MM-DD".
Proof. reflexivity. Qed.

Lemma verificar_producto_desconocido_witness :
  Tools.dict_contains Tools.productos_db "PROD999" = false /\
  Tools.verificar_elegibilidad_producto noon "PROD999" "2024-10-01"
  = "❌ Error: El producto PROD999 no existe en nuestro sistema." /\
  str_in "PROD999" (Tools.verificar_elegibilidad_producto noon "PROD999" "2024-10-01")
  = true.
Proof.
  split; [reflexivity |].
  destruct (@verificar_producto_desconocido AsciiStrptime noon "PROD999" "2024-10-01"
              eq_refl)
    as (_ & Htexto & Hin & _).
  split; [exact Htexto | exact Hin].
Defined.

Lemma verificar_fuera_de_plazo_witness :
  strptime_ymd "2024-10-01"
  = Ok {| year := 2024; month := 10; day := 1;
          hour := 0; minute := 0; second := 0; microsecond := 0 |} /\
  (30 < timedelta_days noon
          {| year := 2024; month := 10; day := 1;
             hour := 0; minute := 0; second := 0; microsecond := 0 |})%Z /\
  Tools.verificar_elegibilidad_producto noon "PROD001" "2024-10-01"
  = "❌ El producto Smartphone EcoTech Pro (PROD001) ya no es elegible para devolución. Han transcurrido 61 días desde la compra, pero el período de devolución es de 30 días.".
Proof.
  split; [reflexivity |].
  split; [reflexivity |].
  destruct (@verificar_fuera_de_plazo AsciiStrptime noon "2024-10-01"
              {| year := 2024; month := 10; day := 1;
                 hour := 0; minute := 0; second := 0; microsecond := 0 |}
              ltac:(reflexivity) ltac:(reflexivity)) as (Htexto & _).
  exact Htexto.
Defined.

(** ** Tool errors and the status of a query *)

Section ToolErrorFacts.
Import Tools Agent Wiring.
Context `{PyStrptime}.
Local Open Scope Z_scope.

(** C5, on the code.  [create_tools] registers the function of two
    parameters [verificar_elegibilidad_producto] as a tool of one input, so
    the call of the tool raises [TypeError] whatever its input.  A run that
    invokes the tool raises, and [process_query] answers with the status
    ["error"] and one more error, as the claim says; but the response is
    the text of the [TypeError], which does not contain the product id. *)
Theorem process_query_tool_wiring (self : EcoAgent) (now tool_now : datetime)
  (user_input tool_input : string) (continue : string -> result string) :
  let run := run_invoking (verificar_tool tool_now) tool_input continue in
  let out := process_query (create_agent self) run now user_input in
  tool_run (verificar_tool tool_now) tool_input
  = Raise (TypeError "verificar_elegibilidad_producto() missing 1 required positional argument: 'fecha_compra'") /\
  agent_status (fst out) = "error" /\
  errors (stats (snd out)) = errors (stats self) + 1 /\
  successful_interactions (stats (snd out)) = successful_interactions (stats self) /\
  response (fst out)
  = "Lo siento, ocurrió un error al procesar tu consulta: verificar_elegibilidad_producto() missing 1 required positional argument: 'fecha_compra'" /\
  str_in "PROD999" (response (fst out)) = false.
Proof.
  intros run out.
  assert (Htool :
    tool_run (verificar_tool tool_now) tool_input
    = Raise (TypeError "verificar_elegibilidad_producto() missing 1 required positional argument: 'fecha_compra'"))
    by reflexivity.
  assert (Hrun : run (_create_contextual_prompt user_input)
                 = Raise (TypeError "verificar_elegibilidad_producto() missing 1 required positional argument: 'fecha_compra'"))
    by (unfold run, run_invoking; now rewrite Htool).
  pose proof (process_query_outcome (create_agent self) _ run now user_input
                eq_refl) as Hout.
  rewrite Hrun in Hout.
  destruct Hout as (Hresponse & Hstatus & Hsuccess & Herrors).
  fold out in Hresponse, Hstatus, Hsuccess, Herrors.
  split; [exact Htool |].
  split; [exact Hstatus |].
  split; [exact Herrors |].
  split; [exact Hsuccess |].
  split; [exact Hresponse |].
  rewrite Hresponse. reflexivity.
Qed.

End ToolErrorFacts.

Example tool_function_names_the_product :
  Tools.verificar_elegibilidad_producto noon "PROD999" "2024-10-01"
  = "❌ Error: El producto PROD999 no existe en nuestro sistema.".
Proof. reflexivity. Qed.

Example process_query_prod999 :
  let run := Wiring.run_invoking (Wiring.verificar_tool noon) "PROD999 2024-10-01"
               (fun observation => Ok observation) in
  let out := Agent.process_query ready_agent run noon ask_prod999 in
  Agent.agent_status (fst out) = "error" /\
  Agent.error (fst out)
  = Some "verificar_elegibilidad_producto() missing 1 required positional argument: 'fecha_compra'" /\
  Agent.errors (Agent.stats (snd out)) = 1%Z /\
  str_in "PROD999" (Agent.response (fst out)) = false.
Proof. repeat split; reflexivity. Qed.

(** ** The pipeline under failure *)

Section RagFacts.
Import Retrieval Rag.


End RagFacts.


Example create_vectorstore_falls_back :
  Rag.vectorstore
    (Rag.create_vectorstore offline_pipeline (Some [doc_once; doc_thrice])
       (Ok []) (fun _ => Raise (OSError "Connection error.")))
  = Some (Rag.SimulatedVectorStore [doc_once; doc_thrice]).
Proof. reflexivity. Qed.

Example create_vectorstore_falls_back_on_defaults :
  Rag.vectorstore
    (Rag.create_vectorstore offline_pipeline None
       (Ok [doc_once; doc_other; doc_thrice])
       (fun _ => Raise (OSError "Connection error.")))
  = Some (Rag.SimulatedVectorStore [doc_once; doc_other; doc_thrice]).
Proof. reflexivity. Qed.


(** ** Answer synthesis *)

Section SynthesisFacts.
Import Retrieval Rag.
Context `{PyUnicode}.

Lemma SimulatedLLM_nonempty (prompt : string) : SimulatedLLM prompt <> EmptyString.
Proof.
  unfold SimulatedLLM.
  destruct (str_in _ _ || str_in _ _); [discriminate |].
  destruct (str_in _ _); [discriminate |].
  destruct (str_in _ _ || str_in _ _); discriminate.
Qed.

Lemma stuff_chain_simulated (retrieve : string -> list Document)
  (prompt_of : list Document -> string -> string) (question : string) :
  answers_with_simulated_llm (stuff_chain retrieve prompt_of) question.
Proof. unfold answers_with_simulated_llm, stuff_chain. now eexists. Qed.

Lemma SimulatedQAChain_simulated (question : string) :
  answers_with_simulated_llm SimulatedQAChain_run question.
Proof. unfold answers_with_simulated_llm, SimulatedQAChain_run. now eexists. Qed.

(** C6.  With the simulated model behind the chain, whatever the question
    and the documents retrieved for it, [query] returns a text that is not
    empty: the canned answer of the model, the text of unavailability when
    no chain is installed, or, when the chain raises, the error text built
    from the message.  [query] is a total function: nothing is raised to
    the caller. *)
Theorem query_text_nonempty (self : EcoRAGPipeline) (question : string) :
  (forall chain, qa_chain self = Some chain ->
                 answers_with_simulated_llm chain question) ->
  result_text (query self question) <> EmptyString /\
  (qa_chain self = None ->
   query self question
   = {| result_text := "Lo siento, el sistema RAG no está disponible en este momento.";
        source_documents := [] |}) /\
  (forall chain e, qa_chain self = Some chain -> chain question = Raise e ->
   query self question
   = {| result_text := "Error al procesar la consulta: " ++ str_of_exn e;
        source_documents := [] |}).
Proof.
  intros Hsim. unfold query.
  destruct (qa_chain self) as [chain |] eqn:Hchain.
  - specialize (Hsim chain eq_refl). unfold answers_with_simulated_llm in Hsim.
    destruct (chain question) as [r | e] eqn:Hrun.
    + destruct Hsim as [prompt Hr].
      split; [rewrite Hr; apply SimulatedLLM_nonempty |].
      split; [discriminate |].
      intros chain' e' Heq Hraise. injection Heq as <-. congruence.
    + split; [discriminate |].
      split; [discriminate |].
      intros chain' e' Heq Hraise. injection Heq as <-. congruence.
  - split; [discriminate |].
    split; [reflexivity |].
    discriminate.
Qed.

End SynthesisFacts.

Example query_simulated_support :
  Rag.result_text (Rag.query simulated_pipeline "Necesito AYUDA con email")
  = "Puedo ayudarte con consultas sobre devoluciones, información de productos y políticas de la empresa.".
Proof. reflexivity. Qed.

Example query_simulated_devolver :
  Rag.query simulated_pipeline "como devolver returns"
  = {| Rag.result_text := "Para procesar una devolución, necesito verificar la elegibilidad del producto y generar una etiqueta de devolución.";
       Rag.source_documents := [doc_thrice; doc_once] |}.
Proof. reflexivity. Qed.

Lemma query_text_nonempty_witness :
  (forall chain, Rag.qa_chain simulated_pipeline = Some chain ->
                 Rag.answers_with_simulated_llm chain "como devolver returns") /\
  Rag.result_text (Rag.query simulated_pipeline "como devolver returns")
  <> EmptyString.
Proof.
  assert (Hsim : forall chain, Rag.qa_chain simulated_pipeline = Some chain ->
                   Rag.answers_with_simulated_llm chain "como devolver returns").
  { intros chain Hchain. injection Hchain as <-.
    unfold Rag.answers_with_simulated_llm, Rag.stuff_chain. now eexists. }
  split; [exact Hsim |].
  apply (query_text_nonempty simulated_pipeline "como devolver returns" Hsim).
Defined.

(** ** The reasoning loop *)

Section LoopFacts.
Import Orchestrator.
Variable N : nat.
Variable strategy : QueryContext -> Decision.
Variable invoke : string -> string -> string.
Variable generic_message : string.


Lemma run_terminal (fuel : nat) (st : Phase * QueryContext) :
  is_terminal (fst st) = true ->
  run N strategy invoke generic_message fuel st = st.
Proof.
  intros Hterm. destruct fuel; simpl; [| rewrite Hterm]; reflexivity.
Qed.

Lemma run_from_reasoning (remaining : nat) :
  forall (ctx : QueryContext) (fuel : nat),
    iteration_count ctx + remaining = N ->
    length (trace ctx) <= iteration_count ctx ->
    2 * remaining + 1 <= fuel ->
    ends_within_budget N strategy generic_message
      (run N strategy invoke generic_message fuel (Reasoning, ctx)).
Proof.
  induction remaining as [| m IH]; intros ctx fuel Hcount Htrace Hfuel.
  - destruct fuel as [| fuel]; [lia |].
    simpl. replace (N <=? iteration_count ctx) with true
      by (symmetry; apply Nat.leb_le; lia).
    rewrite run_terminal by reflexivity.
    repeat split; simpl; try lia. 
  - destruct fuel as [| fuel]; [lia |].
    simpl. replace (N <=? iteration_count ctx) with false
      by (symmetry; apply Nat.leb_gt; lia).
    destruct (strategy ctx) as [name args | answer |] eqn:Hdecision.
    + destruct fuel as [| fuel]; [lia |].
      simpl. apply IH; simpl; try lia.
      rewrite length_app. simpl. lia.
    + rewrite run_terminal by reflexivity.
      split; [reflexivity |]. simpl.
      split; [lia |].
      split; [rewrite length_app; simpl; lia |].
      intros Hnever. now destruct (Hnever ctx answer).
    + apply IH; simpl; lia.
Qed.

Lemma process_ends_within_budget (query : string) :
  ends_within_budget N strategy generic_message
    (process N strategy invoke generic_message query).
Proof.
  unfold process. apply (run_from_reasoning N); simpl; lia.
Qed.

End LoopFacts.

(** C3.  The bound that [create_agent] fixes is 5, the value of
    [AGENT_MAX_ITERATIONS].  With it, for every strategy and query the loop
    ends, in [Finished] or [MaxIterationsReached], after at most 5 reasoning
    steps and with at most as many events as steps; a strategy that never
    gives a final answer ends after exactly 5 steps in
    [MaxIterationsReached] with the best available answer. *)
Theorem reasoning_loop_bounded (self : Agent.EcoAgent)
  (strategy : Orchestrator.QueryContext -> Orchestrator.Decision)
  (invoke : string -> string -> string) (generic_message query : string) :
  exists executor,
    Agent.agent (Agent.create_agent self) = Some executor /\
    Agent.max_iterations executor = 5 /\
    Agent.max_iterations executor = Config.AGENT_MAX_ITERATIONS /\
    let final :=
      Orchestrator.process (Agent.max_iterations executor) strategy invoke
        generic_message query in
    Orchestrator.is_terminal (fst final) = true /\
    Orchestrator.iteration_count (snd final) <= 5 /\
    length (Orchestrator.trace (snd final))
    <= Orchestrator.iteration_count (snd final) /\
    (Orchestrator.never_finishes strategy ->
     fst final
     = Orchestrator.MaxIterationsReached
         (Orchestrator.best_effort generic_message (snd final)) /\
     Orchestrator.iteration_count (snd final) = 5).
Proof.
  eexists. split; [reflexivity |].
  split; [reflexivity |].
  split; [reflexivity |].
  exact (process_ends_within_budget 5 strategy invoke generic_message query).
Qed.

Example stubborn_strategy_stops :
  Orchestrator.process 5 stubborn_strategy echo_capability "sin respuesta" "hola"
  = (Orchestrator.MaxIterationsReached "Consulta RAG: devoluciones",
     {| Orchestrator.raw_query := "hola";
        Orchestrator.iteration_count := 5;
        Orchestrator.trace :=
          repeat (Orchestrator.Action "Consulta RAG" "devoluciones" EmptyString) 5;
        Orchestrator.last_result := Some "Consulta RAG: devoluciones" |}).
Proof. reflexivity. Qed.

Example unparsable_strategy_stops :
  Orchestrator.process 5 (fun _ => Orchestrator.ParseError) echo_capability
    "sin respuesta" "hola"
  = (Orchestrator.MaxIterationsReached "sin respuesta",
     {| Orchestrator.raw_query := "hola";
        Orchestrator.iteration_count := 5;
        Orchestrator.trace := [];
        Orchestrator.last_result := None |}).
Proof. reflexivity. Qed.

Example lookup_then_answer_finishes :
  Orchestrator.process 5 lookup_then_answer echo_capability "sin respuesta" "hola"
  = (Orchestrator.Finished "Consultar Políticas de Devolución: Audio",
     {| Orchestrator.raw_query := "hola";
        Orchestrator.iteration_count := 2;
        Orchestrator.trace :=
          [ Orchestrator.Action "Consultar Políticas de Devolución" "Audio" EmptyString;
            Orchestrator.Finish "Consultar Políticas de Devolución: Audio" EmptyString ];
        Orchestrator.last_result := Some "Consultar Políticas de Devolución: Audio" |}).
Proof. reflexivity. Qed.

Lemma reasoning_loop_bounded_witness :
  Orchestrator.never_finishes stubborn_strategy /\
  let final :=
    Orchestrator.process 5 stubborn_strategy echo_capability "sin respuesta" "hola" in
  fst final
  = Orchestrator.MaxIterationsReached
      (Orchestrator.best_effort "sin respuesta" (snd final)) /\
  Orchestrator.iteration_count (snd final) = 5.
Proof.
  assert (Hnever : Orchestrator.never_finishes stubborn_strategy)
    by (intros ctx answer; discriminate).
  split; [exact Hnever |].
  destruct (reasoning_loop_bounded ready_agent stubborn_strategy echo_capability
              "sin respuesta" "hola")
    as (executor & Hexec & Hmax & _ & Hfinal).
  rewrite Hmax in Hfinal.
  destruct Hfinal as (_ & _ & _ & Hstubborn).
  exact (Hstubborn Hnever).
Defined.

(** ** The event log *)

Section JsonFacts.
Import Json.
Local Open Scope string_scope.

Lemma append_empty_r (s : string) : s ++ EmptyString = s.
Proof. induction s as [| c s IH]; simpl; [reflexivity | now rewrite IH]. Qed.

Lemma loads_from_char (key : option string) (cur : string)
  (items : list (string * string)) (c : ascii) (tail : string) :
  loads_from (PInString key cur SNormal) items (escape_char c ++ tail)
  = loads_from (PInString key (cur ++ String c EmptyString) SNormal) items tail.
Proof.
  destruct c as [[] [] [] [] [] [] [] []]; reflexivity.
Qed.

(** An escaped text followed by the closing quote is read back. *)
Lemma loads_from_escaped (s : string) :
  forall (key : option string) (cur : string) (items : list (string * string))
         (tail : string),
    loads_from (PInString key cur SNormal) items (escape s ++ String dquote tail)
    = loads_from (fst (close_string key (cur ++ s) items))
                 (snd (close_string key (cur ++ s) items)) tail.
Proof.
  induction s as [| c s IH]; intros key cur items tail.
  - rewrite append_empty_r. destruct key; reflexivity.
  - simpl escape. rewrite append_assoc, loads_from_char, IH.
    now rewrite append_assoc.
Qed.

Lemma encode_basestring_app (s tail : string) :
  encode_basestring s ++ tail = String dquote (escape s ++ String dquote tail).
Proof.
  unfold encode_basestring. simpl. now rewrite append_assoc.
Qed.

(** A member ["key": "value"] in the place of a key. *)
Lemma loads_from_member (st : obj_state) (k v : string)
  (items : list (string * string)) (tail : string) :
  st = PKey \/ st = PKeyOrEnd ->
  loads_from st items (encode_basestring k ++ ": " ++ encode_basestring v ++ tail)
  = loads_from PCommaOrEnd (dict_set items k v) tail.
Proof.
  intros Hst.
  rewrite encode_basestring_app.
  assert (Hopen : loads_from st items
                    (String dquote (escape k ++ String dquote
                                      (": " ++ encode_basestring v ++ tail)))
                  = loads_from (PInString None EmptyString SNormal) items
                      (escape k ++ String dquote
                                      (": " ++ encode_basestring v ++ tail)))
    by (destruct Hst as [-> | ->]; reflexivity).
  rewrite Hopen, loads_from_escaped. simpl close_string. simpl fst. simpl snd.
  rewrite encode_basestring_app.
  change (loads_from (PColon k) items
            (": " ++ String dquote (escape v ++ String dquote tail)))
    with (loads_from (PInString (Some k) EmptyString SNormal) items
            (escape v ++ String dquote tail)).
  now rewrite loads_from_escaped.
Qed.

Lemma loads_from_members (items : list (string * string)) :
  forall (st : obj_state) (acc : list (string * string)),
    st = PKey \/ st = PKeyOrEnd ->
    items <> [] ->
    loads_from st acc (dumps_items items ++ "}") = Some (dict_of items acc).
Proof.
  induction items as [| [k v] rest IH]; intros st acc Hst Hne; [congruence |].
  destruct rest as [| kv rest].
  - change (dumps_items [(k, v)])
      with (encode_basestring k ++ ": " ++ encode_basestring v ++ EmptyString).
    rewrite !append_assoc, loads_from_member by assumption.
    reflexivity.
  - change (dumps_items ((k, v) :: kv :: rest))
      with (encode_basestring k ++ ": " ++ encode_basestring v
            ++ ", " ++ dumps_items (kv :: rest)).
    rewrite !append_assoc, loads_from_member by assumption.
    change (loads_from PCommaOrEnd (dict_set acc k v)
              (", " ++ dumps_items (kv :: rest) ++ "}"))
      with (loads_from PKey (dict_set acc k v)
              (dumps_items (kv :: rest) ++ "}")).
    rewrite IH by (auto; discriminate). reflexivity.
Qed.

(** Decoding what was encoded gives the dict of the pairs. *)
Lemma loads_dumps (items : list (string * string)) :
  loads (dumps items) = Some (dict_of items []).
Proof.
  destruct items as [| kv rest]; [reflexivity |].
  unfold loads, dumps.
  change (loads_from PStart [] ("{" ++ dumps_items (kv :: rest) ++ "}"))
    with (loads_from PKeyOrEnd [] (dumps_items (kv :: rest) ++ "}")).
  apply loads_from_members; [now right | discriminate].
Qed.

End JsonFacts.

Section LoggerFacts.
Import Json Logger.
Local Open Scope string_scope.

Lemma no_linefeed_app (a b : string) :
  no_linefeed (a ++ b) = no_linefeed a && no_linefeed b.
Proof.
  induction a as [| c a IH]; simpl; [reflexivity |].
  now rewrite IH, andb_assoc.
Qed.

Lemma no_linefeed_escape_char (c : ascii) : no_linefeed (escape_char c) = true.
Proof. destruct c as [[] [] [] [] [] [] [] []]; reflexivity. Qed.

Lemma no_linefeed_escape (s : string) : no_linefeed (escape s) = true.
Proof.
  induction s as [| c s IH]; [reflexivity |].
  simpl escape. now rewrite no_linefeed_app, no_linefeed_escape_char, IH.
Qed.

Lemma no_linefeed_encode (s : string) : no_linefeed (encode_basestring s) = true.
Proof.
  unfold encode_basestring.
  change (String dquote (escape s ++ String dquote EmptyString))
    with (String dquote EmptyString ++ escape s ++ String dquote EmptyString).
  now rewrite !no_linefeed_app, no_linefeed_escape.
Qed.

Lemma no_linefeed_dumps_items (items : list (string * string)) :
  no_linefeed (dumps_items items) = true.
Proof.
  induction items as [| [k v] rest IH]; [reflexivity |].
  destruct rest as [| kv rest].
  - change (dumps_items [(k, v)])
      with (encode_basestring k ++ ": " ++ encode_basestring v ++ EmptyString).
    now rewrite !no_linefeed_app, !no_linefeed_encode.
  - change (dumps_items ((k, v) :: kv :: rest))
      with (encode_basestring k ++ ": " ++ encode_basestring v
            ++ ", " ++ dumps_items (kv :: rest)).
    now rewrite !no_linefeed_app, !no_linefeed_encode, IH.
Qed.

(** The encoder writes an object on one line. *)
Lemma no_linefeed_dumps (items : list (string * string)) :
  no_linefeed (dumps items) = true.
Proof.
  unfold dumps. now rewrite !no_linefeed_app, no_linefeed_dumps_items.
Qed.

Lemma is_digit_digit_char (n : Z) : is_digit (digit_char n) = true.
Proof.
  unfold digit_char.
  assert (Hrange : (0 <= n mod 10 < 10)%Z) by (apply Z.mod_pos_bound; lia).
  assert (Hcases : In (Z.to_nat (n mod 10)) (seq 0 10)) by (apply in_seq; lia).
  simpl in Hcases.
  repeat (destruct Hcases as [<- | Hcases]; [reflexivity |]).
  contradiction.
Qed.

Lemma isoformat_shape (d : datetime) : is_iso8601 (isoformat d) = true.
Proof.
  unfold isoformat.
  change (zero_padded 4 (year d))
    with (String (digit_char (year d / 10 / 10 / 10))
            (String (digit_char (year d / 10 / 10))
               (String (digit_char (year d / 10))
                  (String (digit_char (year d)) EmptyString)))).
  change (zero_padded 2 (month d))
    with (String (digit_char (month d / 10)) (String (digit_char (month d)) EmptyString)).
  change (zero_padded 2 (day d))
    with (String (digit_char (day d / 10)) (String (digit_char (day d)) EmptyString)).
  change (zero_padded 2 (hour d))
    with (String (digit_char (hour d / 10)) (String (digit_char (hour d)) EmptyString)).
  change (zero_padded 2 (minute d))
    with (String (digit_char (minute d / 10)) (String (digit_char (minute d)) EmptyString)).
  change (zero_padded 2 (second d))
    with (String (digit_char (second d / 10)) (String (digit_char (second d)) EmptyString)).
  change (zero_padded 6 (microsecond d))
    with (String (digit_char (microsecond d / 10 / 10 / 10 / 10 / 10))
            (String (digit_char (microsecond d / 10 / 10 / 10 / 10))
               (String (digit_char (microsecond d / 10 / 10 / 10))
                  (String (digit_char (microsecond d / 10 / 10))
                     (String (digit_char (microsecond d / 10))
                        (String (digit_char (microsecond d)) EmptyString)))))).
  destruct (microsecond d =? 0)%Z;
    unfold is_iso8601; cbn -[digit_char is_digit];
    rewrite !is_digit_digit_char; reflexivity.
Qed.

End LoggerFacts.

Section EventLog.
Import Json Logger.
Local Open Scope string_scope.

(** What the handlers write when they are called.  When the append to the
    log file succeeds, an action and a final answer each add exactly one
    line to the file: the encoded entry, free of line feeds, followed by a
    line feed.  Decoding
    the line gives back the fields: a [timestamp] of ISO-8601 shape, a
    [type] that is ["agent_action"] or ["agent_finish"], and the tool, its
    input and the log of the action, or the output and the log of the final
    answer.  When the append fails, the file is left as it was. *)
Theorem agent_events_logged (file : string) (now : datetime)
  (action : AgentAction) (finish : AgentFinish) :
  let action_line := dumps (action_entry now action) in
  let finish_line := dumps (finish_entry now finish) in
  on_agent_action file now action (Ok tt) = file ++ action_line ++ nl /\
  on_agent_finish file now finish (Ok tt) = file ++ finish_line ++ nl /\
  no_linefeed action_line = true /\
  no_linefeed finish_line = true /\
  loads action_line
  = Some [ ("timestamp", isoformat now); ("type", "agent_action");
           ("tool", tool action); ("tool_input", tool_input action);
           ("log", log action) ] /\
  loads finish_line
  = Some [ ("timestamp", isoformat now); ("type", "agent_finish");
           ("output", dict_get_default (return_values finish) "output" EmptyString);
           ("log", finish_log finish) ] /\
  is_iso8601 (isoformat now) = true /\
  forall e, on_agent_action file now action (Raise e) = file /\
            on_agent_finish file now finish (Raise e) = file.
Proof.
  intros action_line finish_line.
  split; [reflexivity |].
  split; [reflexivity |].
  split; [apply no_linefeed_dumps |].
  split; [apply no_linefeed_dumps |].
  split; [unfold action_line; rewrite loads_dumps; reflexivity |].
  split; [unfold finish_line; rewrite loads_dumps; reflexivity |].
  split; [apply isoformat_shape |].
  intros e. split; reflexivity.
Qed.

End EventLog.

Example isoformat_noon : isoformat noon = "2024-12-01T12:00:00".
Proof. reflexivity. Qed.

Example isoformat_fraction :
  isoformat {| year := 5; month := 1; day := 2; hour := 3; minute := 4;
               second := 5; microsecond := 5 |}
  = "0005-01-02T03:04:05.000005".
Proof. reflexivity. Qed.

Example dumps_escapes :
  Json.dumps [("log", ("a" ++ nl ++ String Json.dquote "b\")%string)]
  = String "{" (String Json.dquote ("log" ++ String Json.dquote (": "
      ++ String Json.dquote ("a\n\" ++ String Json.dquote ("b\\"
      ++ String Json.dquote "}")))))%string.
Proof. reflexivity. Qed.

Example loads_sample_action :
  Json.loads (Json.dumps (Logger.action_entry noon sample_action))
  = Some [ ("timestamp", "2024-12-01T12:00:00"); ("type", "agent_action");
           ("tool", "Verificar Elegibilidad de Producto");
           ("tool_input", "PROD001 2024-10-01");
           ("log", Logger.log sample_action) ].
Proof. reflexivity. Qed.

Example logged_type_fields :
  (exists fields,
      Json.loads (Json.dumps (Logger.action_entry noon sample_action)) = Some fields /\
      Tools.dict_get fields "type" = Some "agent_action" /\
      Tools.dict_get fields "type" <> Some "action" /\
      Tools.dict_get fields "type" <> Some "finish") /\
  (exists fields,
      Json.loads (Json.dumps (Logger.finish_entry noon sample_finish)) = Some fields /\
      Tools.dict_get fields "type" = Some "agent_finish" /\
      Tools.dict_get fields "type" <> Some "action" /\
      Tools.dict_get fields "type" <> Some "finish") /\
  Logger.on_agent_action EmptyString noon sample_action
    (Raise (OSError "No space left on device")) = EmptyString.
Proof.
  split; [| split].
  - eexists. split; [reflexivity |]. repeat split; discriminate.
  - eexists. split; [reflexivity |]. repeat split; discriminate.
  - reflexivity.
Qed.

(** ** The logger and the executor *)

Section CallbackFacts.
Import Json Logger Callbacks.
Local Open Scope string_scope.

(** C9, on the code.  The logger that [EcoAgent.__init__] creates is given
    to the executor neither by [create_agent] nor by [process_query]: no
    handler is registered, so whatever the executor reports, actions and
    final answers, the log file is left as it was.  Had the logger been
    registered, an event whose append succeeds would add its line. *)
Theorem logger_not_registered
  (events : list (datetime * AgentEvent * result unit)) (file : string) :
  (create_agent_callbacks ++ process_query_callbacks)%list = [] /\
  log_after (create_agent_callbacks ++ process_query_callbacks)%list events file
  = file /\
  forall now action,
    log_after [logger] [(now, ActionEvent action, Ok tt)] file
    = file ++ dumps (action_entry now action) ++ nl.
Proof.
  split; [reflexivity |].
  split.
  - simpl. revert file. induction events as [| [[now event] io] rest IH];
      intros file; [reflexivity | apply IH].
  - intros now action. reflexivity.
Qed.

End CallbackFacts.

Example sample_run_leaves_no_line :
  Callbacks.log_after
    (Callbacks.create_agent_callbacks ++ Callbacks.process_query_callbacks)
    sample_events EmptyString
  = EmptyString.
Proof. reflexivity. Qed.

Example sample_run_with_the_logger :
  Callbacks.log_after [Callbacks.logger] sample_events EmptyString
  = (Json.dumps (Logger.action_entry noon sample_action) ++ nl
     ++ Json.dumps (Logger.finish_entry noon sample_finish) ++ nl)%string.
Proof. reflexivity. Qed.
